(** * parallel_executor.py: the benchmarking engine

  A shallow embedding of [src/parallel_executor.py]: the three strategy
  executors ([ForkExecutor], [ThreadExecutor], [SubshellExecutor]), their
  result analysis, the orchestrator [ParallelExecutor.execute], the
  recommendation list and the iteration count chosen by [main].

  Conventions of the embedding.
  - Python [int] is [Z]; Python [float] is [Q] (exact rationals: rounding
    is not modelled); [str] is [string]; a [dict] with a fixed set of
    keys is a record whose fields bear the keys' names, inside a module
    named after the dict; an optional key is an [option] field.
  - Exceptions are values of [exn]; code that may raise lives in [result]
    (pure code) or in [M] (code that also spawns processes or writes
    files).
  - Everything the program reads from the outside (what a spawned process
    does, clock differences, thread identities, the order in which worker
    threads append their results, the CPU count) is a field of [World].
    The [k]-th call of [subprocess.run] since the start is answered by
    the world at index [k].
  - [print] calls are not modelled. [os.fork] is taken to succeed. *)

From Stdlib Require Import ZArith QArith Qminmax Lia Lqa Ascii String.
From stdpp Require Import base option list gmap sets strings.

Open Scope string_scope.
Open Scope list_scope.
Open Scope Z_scope.

(** ** Exceptions and the [result] monad *)

Inductive exn : Type :=
| ValueError (msg : string)
| StatisticsError (msg : string)
| Exception (msg : string).

Inductive result (A : Type) : Type :=
| Ok (a : A)
| Raise (e : exn).
Arguments Ok {A} a.
Arguments Raise {A} e.

#[global] Instance result_ret : MRet result := λ A a, Ok a.
#[global] Instance result_bind : MBind result := λ A B f m,
match m with
| Ok a => f a
| Raise e => Raise e
end.

Definition is_ok {A} (r : result A) : bool :=
match r with Ok _ => true | Raise _ => false end.

(** ** Python builtins on numbers and lists *)

Module Py.

Definition lt (a b : Q) : bool := negb (Qle_bool b a).
Definition gt (a b : Q) : bool := lt b a.
Definition le (a b : Q) : bool := Qle_bool a b.

(** [len(l)] *)
Definition len {A} (l : list A) : Z := Z.of_nat (length l).

(** [sum(l)]: a left fold that starts from [0]. *)
Definition sum (l : list Q) : Q := foldl Qplus 0%Q l.

(** [a / b] on two ints, a float. *)
Definition truediv (a b : Z) : Q := (inject_Z a / inject_Z b)%Q.

(** [min(a, b)] and [max(a, b)] on floats: the first argument wins a tie. *)
Definition min2 (a b : Q) : Q := if lt b a then b else a.
Definition max2 (a b : Q) : Q := if gt b a then b else a.

(** [min(l)] and [max(l)]: [ValueError] on an empty sequence. *)
Definition min (l : list Q) : result Q :=
  match l with
  | [] => Raise (ValueError "min() arg is an empty sequence")
  | x :: l' => Ok (foldl min2 x l')
  end.

Definition max (l : list Q) : result Q :=
  match l with
  | [] => Raise (ValueError "max() arg is an empty sequence")
  | x :: l' => Ok (foldl max2 x l')
  end.

(** [sorted(l)] *)
Fixpoint insert_sorted (x : Q) (l : list Q) : list Q :=
  match l with
  | [] => [x]
  | y :: l' => if le x y then x :: l else y :: insert_sorted x l'
  end.

Definition sorted (l : list Q) : list Q := foldr insert_sorted [] l.

(** [len(set(l))] *)
Definition distinct (l : list Z) : Z := Z.of_nat (size (list_to_set l : gset Z)).

(** [range(n)]: empty when [n <= 0]. *)
Definition range (n : Z) : list Z := seqZ 0 n.

(** [s[:n]] on a string. *)
Definition prefix (n : nat) (s : string) : string := String.substring 0 n s.

(** [sep.join(l)] *)
Fixpoint join (sep : string) (l : list string) : string :=
  match l with
  | [] => EmptyString
  | [s] => s
  | s :: l' => s +:+ sep +:+ join sep l'
  end.

(** [s.split()]: the maximal runs of characters that are not ASCII
    whitespace. [cur] holds the current run, reversed. *)
Definition is_space (c : ascii) : bool :=
  let n := Ascii.nat_of_ascii c in
  ((9 <=? n)%nat && (n <=? 13)%nat) || ((28 <=? n)%nat && (n <=? 32)%nat).

Definition flush (cur : list ascii) (acc : list string) : list string :=
  match cur with
  | [] => acc
  | _ => string_of_list_ascii (rev cur) :: acc
  end.

Fixpoint split_go (s : string) (cur : list ascii) (acc : list string)
  : list string :=
  match s with
  | EmptyString => rev (flush cur acc)
  | String c s' =>
      if is_space c then split_go s' [] (flush cur acc)
      else split_go s' (c :: cur) acc
  end.

Definition split (s : string) : list string := split_go s [] [].

End Py.

(** ** The [statistics] module of the standard library

  [sqrt] is the square root of the host; it is a parameter. *)

Module statistics.

Definition mean (data : list Q) : result Q :=
  match data with
  | [] => Raise (StatisticsError "mean requires at least one data point")
  | _ => Ok (Py.sum data / inject_Z (Py.len data))%Q
  end.

Definition median (data : list Q) : result Q :=
  let data := Py.sorted data in
  let n := length data in
  if (n =? 0)%nat then Raise (StatisticsError "no median for empty data")
  else if (n mod 2 =? 1)%nat then Ok (default 0%Q (data !! (n / 2)%nat))
  else
    let i := (n / 2)%nat in
    Ok ((default 0%Q (data !! (i - 1)%nat) + default 0%Q (data !! i)) / 2)%Q.

Definition variance (data : list Q) : result Q :=
  if Py.len data <? 2
  then Raise (StatisticsError "variance requires at least two data points")
  else
    xbar ← mean data;
    let ss := Py.sum ((λ x, (x - xbar) * (x - xbar))%Q <$> data) in
    Ok (ss / inject_Z (Py.len data - 1))%Q.

Definition stdev (sqrt : Q → Q) (data : list Q) : result Q :=
  var ← variance data;
  Ok (sqrt var).

End statistics.

(** ** The outside world *)

(** What one call of [subprocess.run] does: it returns a completed process,
    or raises. [OtherError] stands for any exception that is neither
    [TimeoutExpired] nor an [OSError]. *)
Inductive run_outcome : Type :=
| Completed (returncode : Z) (stderr : string)
| TimeoutExpired
| FileNotFoundError (msg : string)
| OSError (msg : string)
| OtherError (msg : string).

(** What becomes of a forked child, as [os.waitpid] sees it in the parent. *)
Inductive child_fate : Type :=
| ChildExits
| ChildSignaled (signal : Z)
| WaitFails (msg : string).

Inductive wait_status : Type :=
| WExited (code : Z)
| WSignaled (signal : Z).

Definition WIFEXITED (status : wait_status) : bool :=
  match status with WExited _ => true | WSignaled _ => false end.

Definition WEXITSTATUS (status : wait_status) : Z :=
  match status with WExited code => code | WSignaled _ => 0 end.

(** [cpu_count] is what [multiprocessing.cpu_count()] returns: a positive
    number (the call raises rather than return anything else). *)
Module SystemInfo.
Record t : Type := mk {
  cpu_count : positive;
  memory_total : Z;
  memory_available : Z;
  cpu_percent : Q;
  load_average : option (Q * Q * Q);
  platform : string
}.
End SystemInfo.

(** The index [k] of the per-process fields counts the calls of
    [subprocess.run] made before. *)
Record World : Type := {
  host : SystemInfo.t;
  sqrt : Q → Q;
  outcome : nat → run_outcome;
  elapsed : nat → Q;        (* [end_time - start_time] around call [k] *)
  fate : nat → child_fate;  (* fork: the child that makes call [k] *)
  pid : nat → Z;            (* fork: its process id *)
  thread_ident : nat → Z;   (* thread: the worker that makes call [k] *)
  finish_rank : nat → nat;  (* thread: when that worker takes the lock *)
  pool_elapsed : nat → Q;   (* thread: [end_execution - start_execution]
                               of the pool whose first call is [k] *)
  total_elapsed : nat → Q;  (* orchestrator: [end_total_time -
                               start_total_time], first call [k] *)
  now : Q;                  (* [time.time()] when the run is stamped *)
  disk_ok : bool            (* whether the JSON file can be written *)
}.

Definition multiprocessing_cpu_count (w : World) : Z :=
  Z.pos (SystemInfo.cpu_count (host w)).

(** ** The dicts of the program *)

Module ForkMetric.
Record t : Type := mk {
  iteration : Z;
  execution_time : Q;
  child_pid : Z;
  exit_status : Z;
  success : bool;
  error : option string
}.
End ForkMetric.

Module ThreadMetric.
Record t : Type := mk {
  iteration : Z;
  thread_id : Z;
  execution_time : Q;
  return_code : Z;
  success : bool;
  stderr : option string;
  error : option string
}.
End ThreadMetric.

Module SubshellMetric.
Record t : Type := mk {
  iteration : Z;
  execution_time : Q;
  return_code : Z;
  success : bool;
  error : option string
}.
End SubshellMetric.

Module ExecutionTimes.
Record t : Type := mk {
  values : list Q;
  mean : Q;
  median : Q;
  stdev : Q;
  min : Q;
  max : Q
}.
End ExecutionTimes.

Module ForkEfficiency.
Record t : Type := mk {
  success_rate : Q;
  failure_rate : Q;
  average_processes : Z;
  process_creation_efficiency : Q
}.
End ForkEfficiency.

Module ConcurrencyAnalysis.
Record t : Type := mk {
  total_threads : Z;
  success_rate : Q;
  average_execution_time : Q;
  thread_efficiency : Q;
  actual_parallelism : Q;
  parallel_overhead : option Q
}.
End ConcurrencyAnalysis.

Module IsolationAnalysis.
Record t : Type := mk {
  success_rate : Q;
  average_execution_time : Q;
  isolation_efficiency : Q
}.
End IsolationAnalysis.

(** The keys that only one strategy writes. *)
Inductive strategy_detail : Type :=
| ForkDetail (process_metrics : list ForkMetric.t)
    (parallel_efficiency : ForkEfficiency.t)
| ThreadDetail (thread_metrics : list ThreadMetric.t)
    (concurrency_analysis : ConcurrencyAnalysis.t)
| SubshellDetail (subshell_metrics : list SubshellMetric.t)
    (isolation_analysis : IsolationAnalysis.t).

(** The dict an executor returns. [unique_threads_used] is written by the
    thread strategy only, and not on its empty-result path. *)
Module StrategyResult.
Record t : Type := mk {
  execution_type : string;
  total_iterations : Z;
  successful_iterations : Z;
  failed_iterations : Z;
  unique_threads_used : option Z;
  execution_times : ExecutionTimes.t;
  detail : strategy_detail
}.
End StrategyResult.

(** The same dict after [execute] has added its keys. *)
Module BenchmarkRun.
Record t : Type := mk {
  results : StrategyResult.t;
  total_execution_time : Q;
  file_path : string;
  command : list string;
  compile_info : string;
  timestamp : Q;
  system_info : SystemInfo.t
}.
End BenchmarkRun.

(** ** The store and the monad of effectful code *)

(** The source line of a [subprocess.run] call. *)
Inductive call_site : Type :=
| Preflight
| ForkChild
| ThreadTask
| SubshellIteration.

Record Spawn : Type := {
  site : call_site;
  argv : list string;
  timeout : Z
}.

(** [spawned]: every call of [subprocess.run] so far, oldest first.
    [saved]: the runs written to disk. *)
Record Store : Type := {
  spawned : list Spawn;
  saved : list BenchmarkRun.t
}.

Definition M (A : Type) : Type := Store → result A * Store.

#[global] Instance M_ret : MRet M := λ A a st, (Ok a, st).
#[global] Instance M_bind : MBind M := λ A B f m st,
  match m st with
  | (Ok a, st') => f a st'
  | (Raise e, st') => (Raise e, st')
  end.

Definition raise {A} (e : exn) : M A := λ st, (Raise e, st).

Definition lift {A} (r : result A) : M A := λ st, (r, st).

(** The number of processes spawned so far: the index of the next one. *)
Definition next_index : M nat := λ st, (Ok (length (spawned st)), st).

(** The store after one more call of [subprocess.run]. *)
Definition record_spawn (from : call_site) (command : list string)
    (timeout : Z) (st : Store) : Store :=
  {| spawned := spawned st ++ [{| site := from; argv := command;
                                  timeout := timeout |}];
     saved := saved st |}.

Definition subprocess_run (w : World) (from : call_site)
    (command : list string) (timeout : Z) : M run_outcome := λ st,
  (Ok (outcome w (length (spawned st))),
   record_spawn from command timeout st).

(** [for x in l: results.append(body(x))] *)
Fixpoint for_each {A B} (body : A → M B) (l : list A) : M (list B) :=
  match l with
  | [] => mret []
  | x :: l' =>
      r ← body x;
      rs ← for_each body l';
      mret (r :: rs)
  end.

(** ** The dict [execution_times]

    The three [_analyze_*_results] functions build this dict by the same
    literal; it is written once here. *)
Definition execution_times_dict (w : World) (execution_times : list Q)
  : result ExecutionTimes.t :=
  mean ← statistics.mean execution_times;
  median ← statistics.median execution_times;
  stdev ← (if 1 <? Py.len execution_times
           then statistics.stdev (sqrt w) execution_times
           else Ok 0%Q);
  min ← Py.min execution_times;
  max ← Py.max execution_times;
  Ok (ExecutionTimes.mk execution_times mean median stdev min max).

(** [if not execution_times: execution_times = [0.0]] *)
Definition or_zero (execution_times : list Q) : list Q :=
  match execution_times with
  | [] => [0%Q]
  | _ => execution_times
  end.

(** ** ForkExecutor *)

Definition _calculate_fork_efficiency (results : list ForkMetric.t)
  : ForkEfficiency.t :=
  let successful_runs := filter (λ r, ForkMetric.success r) results in
  let failed_runs := filter (λ r, ¬ ForkMetric.success r) results in
  let rate (part : Z) : Q :=
    match results with
    | [] => 0%Q
    | _ => Py.truediv part (Py.len results)
    end in
  {| ForkEfficiency.success_rate := rate (Py.len successful_runs);
     ForkEfficiency.failure_rate := rate (Py.len failed_runs);
     ForkEfficiency.average_processes := Py.len results;
     ForkEfficiency.process_creation_efficiency :=
       rate (Py.len successful_runs) |}.

Definition _analyze_fork_results (w : World) (results : list ForkMetric.t)
  : result StrategyResult.t :=
  let successful_results := filter (λ r, ForkMetric.success r) results in
  let execution_times :=
    or_zero (ForkMetric.execution_time <$> successful_results) in
  times ← execution_times_dict w execution_times;
  Ok {| StrategyResult.execution_type := "fork";
        StrategyResult.total_iterations := Py.len results;
        StrategyResult.successful_iterations := Py.len successful_results;
        StrategyResult.failed_iterations :=
          Py.len results - Py.len successful_results;
        StrategyResult.unique_threads_used := None;
        StrategyResult.execution_times := times;
        StrategyResult.detail :=
          ForkDetail results (_calculate_fork_efficiency results) |}.

(** The child branch of the fork ([pid == 0]): the code it hands to
    [os._exit]. *)
Definition child_exit_code (o : run_outcome) : Z :=
  match o with
  | Completed returncode _ => returncode
  | TimeoutExpired => 124
  | FileNotFoundError _ | OSError _ | OtherError _ => 1
  end.

(** [os.waitpid(pid, 0)] on a child that calls [os._exit(code)]: the
    kernel keeps the low eight bits of [code]. [inl] is an [OSError]. *)
Definition os_waitpid (w : World) (k : nat) (code : Z)
  : string + wait_status :=
  match fate w k with
  | ChildExits => inr (WExited (Z.land code 255))
  | ChildSignaled signal => inr (WSignaled signal)
  | WaitFails msg => inl msg
  end.

(** The body of the loop of [execute_with_fork], for loop index [i]. The
    list [self.child_pids] is written and never read: it is left out. *)
Definition fork_iteration (w : World) (command : list string) (i : Z)
  : M ForkMetric.t :=
  k ← next_index;
  o ← subprocess_run w ForkChild command 10;
  mret (match os_waitpid w k (child_exit_code o) with
        | inr status =>
            {| ForkMetric.iteration := i + 1;
               ForkMetric.execution_time := elapsed w k;
               ForkMetric.child_pid := pid w k;
               ForkMetric.exit_status :=
                 if WIFEXITED status then WEXITSTATUS status else -1;
               ForkMetric.success :=
                 WIFEXITED status && (WEXITSTATUS status =? 0);
               ForkMetric.error := None |}
        | inl e =>
            {| ForkMetric.iteration := i + 1;
               ForkMetric.execution_time := elapsed w k;
               ForkMetric.child_pid := pid w k;
               ForkMetric.exit_status := -1;
               ForkMetric.success := false;
               ForkMetric.error := Some e |}
        end).

Definition execute_with_fork (w : World) (command : list string)
    (iterations : Z) : M StrategyResult.t :=
  results ← for_each (fork_iteration w command) (Py.range iterations);
  lift (_analyze_fork_results w results).

(** ** ThreadExecutor *)

Definition _calculate_thread_efficiency (results : list ThreadMetric.t)
    (total_time : Q) : Q :=
  let successful_results := filter (λ r, ThreadMetric.success r) results in
  match successful_results with
  | [] => 0%Q
  | _ =>
      if Py.le total_time 0 then 0%Q
      else
        let individual_times :=
          ThreadMetric.execution_time <$> successful_results in
        let sequential_time := Py.sum individual_times in
        let threads_used := Py.distinct (ThreadMetric.thread_id <$> results) in
        let theoretical_parallel_time :=
          (total_time * inject_Z threads_used)%Q in
        let efficiency :=
          if Py.gt theoretical_parallel_time 0
          then (sequential_time / theoretical_parallel_time)%Q
          else 0%Q in
        Py.min2 efficiency 1
  end.

Definition _analyze_thread_results (w : World)
    (results : list ThreadMetric.t) (total_time : Q)
  : result StrategyResult.t :=
  match results with
  | [] =>
      Ok {| StrategyResult.execution_type := "thread";
            StrategyResult.total_iterations := 0;
            StrategyResult.successful_iterations := 0;
            StrategyResult.failed_iterations := 0;
            StrategyResult.unique_threads_used := None;
            StrategyResult.execution_times :=
              ExecutionTimes.mk [0%Q] 0 0 0 0 0;
            StrategyResult.detail :=
              ThreadDetail []
                {| ConcurrencyAnalysis.total_threads := 0;
                   ConcurrencyAnalysis.success_rate := 0;
                   ConcurrencyAnalysis.average_execution_time := 0;
                   ConcurrencyAnalysis.thread_efficiency := 0;
                   ConcurrencyAnalysis.actual_parallelism := 0;
                   ConcurrencyAnalysis.parallel_overhead := None |} |}
  | _ =>
      let successful_results :=
        filter (λ r, ThreadMetric.success r) results in
      let execution_times :=
        or_zero (ThreadMetric.execution_time <$> successful_results) in
      let unique_threads := Py.distinct (ThreadMetric.thread_id <$> results) in
      let actual_parallelism :=
        match successful_results with
        | [] => 0%Q
        | _ =>
            let sequential_time := Py.sum execution_times in
            let parallel_time := total_time in
            if Py.gt parallel_time 0
            then (sequential_time / parallel_time)%Q
            else 1%Q
        end in
      times ← execution_times_dict w execution_times;
      average ← match execution_times with
                | [] => Ok 0%Q
                | _ => statistics.mean execution_times
                end;
      longest ← match execution_times with
                | [] => Ok 0%Q
                | _ => Py.max execution_times
                end;
      Ok {| StrategyResult.execution_type := "thread";
            StrategyResult.total_iterations := Py.len results;
            StrategyResult.successful_iterations :=
              Py.len successful_results;
            StrategyResult.failed_iterations :=
              Py.len results - Py.len successful_results;
            StrategyResult.unique_threads_used := Some unique_threads;
            StrategyResult.execution_times := times;
            StrategyResult.detail :=
              ThreadDetail results
                {| ConcurrencyAnalysis.total_threads := unique_threads;
                   ConcurrencyAnalysis.success_rate :=
                     Py.truediv (Py.len successful_results)
                       (Py.len results);
                   ConcurrencyAnalysis.average_execution_time := average;
                   ConcurrencyAnalysis.thread_efficiency :=
                     _calculate_thread_efficiency results total_time;
                   ConcurrencyAnalysis.actual_parallelism :=
                     actual_parallelism;
                   ConcurrencyAnalysis.parallel_overhead :=
                     Some (total_time - longest)%Q |} |}
  end.

(** The nested function [run_single_iteration]: one task of the pool. Each
    of its three paths appends exactly one dict to [results]; the appended
    dict is the value returned here. *)
Definition run_single_iteration (w : World) (command : list string)
    (iteration_num : Z) : M ThreadMetric.t :=
  k ← next_index;
  let thread_id := thread_ident w k in
  o ← subprocess_run w ThreadTask command 10;
  mret (match o with
        | Completed returncode stderr =>
            {| ThreadMetric.iteration := iteration_num;
               ThreadMetric.thread_id := thread_id;
               ThreadMetric.execution_time := elapsed w k;
               ThreadMetric.return_code := returncode;
               ThreadMetric.success := returncode =? 0;
               ThreadMetric.stderr :=
                 if negb (returncode =? 0) && negb (String.eqb stderr EmptyString)
                 then Some (Py.prefix 200 stderr) else None;
               ThreadMetric.error := None |}
        | TimeoutExpired =>
            {| ThreadMetric.iteration := iteration_num;
               ThreadMetric.thread_id := thread_id;
               ThreadMetric.execution_time := elapsed w k;
               ThreadMetric.return_code := 124;
               ThreadMetric.success := false;
               ThreadMetric.stderr := None;
               ThreadMetric.error := Some "timeout" |}
        | FileNotFoundError e | OSError e | OtherError e =>
            {| ThreadMetric.iteration := iteration_num;
               ThreadMetric.thread_id := thread_id;
               ThreadMetric.execution_time := elapsed w k;
               ThreadMetric.return_code := -1;
               ThreadMetric.success := false;
               ThreadMetric.stderr := None;
               ThreadMetric.error := Some e |}
        end).

(** The order of the shared list [results]: the tasks append under the
    lock, so the list holds one dict per task, in the order in which the
    workers took the lock. Task [j] of a pool whose first call is [k0] is
    call [k0 + j]; the tasks are sorted by [finish_rank], ties in
    submission order. *)
Fixpoint insert_by_rank {A} (x : nat * A) (l : list (nat * A))
  : list (nat * A) :=
  match l with
  | [] => [x]
  | y :: l' =>
      if (x.1 <=? y.1)%nat then x :: l else y :: insert_by_rank x l'
  end.

Definition in_completion_order {A} (w : World) (k0 : nat) (tasks : list A)
  : list A :=
  (foldr insert_by_rank []
     (imap (λ j r, (finish_rank w (k0 + j), r)) tasks)).*2.

(** [ThreadPoolExecutor(max_workers=n)] raises [ValueError] when [n <= 0].
    Leaving the [with] block waits for every submitted task, so all tasks
    have appended when [results] is read; [future.result(timeout=12)] only
    prints on failure. *)
Definition execute_with_threads (w : World) (command : list string)
    (iterations : Z) : M StrategyResult.t :=
  let optimal_workers :=
    Z.min (Z.min iterations (multiprocessing_cpu_count w)) 8 in
  k0 ← next_index;
  if optimal_workers <=? 0
  then raise (ValueError "max_workers must be greater than 0")
  else
    appended ← for_each (λ i, run_single_iteration w command (i + 1))
                 (Py.range iterations);
    let results := in_completion_order w k0 appended in
    lift (_analyze_thread_results w results (pool_elapsed w k0)).

(** ** SubshellExecutor *)

Definition _analyze_subshell_isolation (results : list SubshellMetric.t)
  : result IsolationAnalysis.t :=
  let successful_results :=
    filter (λ r, SubshellMetric.success r) results in
  let rate : Q :=
    match results with
    | [] => 0%Q
    | _ => Py.truediv (Py.len successful_results) (Py.len results)
    end in
  average ← match successful_results with
            | [] => Ok 0%Q
            | _ => statistics.mean
                     (SubshellMetric.execution_time <$> successful_results)
            end;
  Ok {| IsolationAnalysis.success_rate := rate;
        IsolationAnalysis.average_execution_time := average;
        IsolationAnalysis.isolation_efficiency := rate |}.

Definition _analyze_subshell_results (w : World)
    (results : list SubshellMetric.t) : result StrategyResult.t :=
  let successful_results :=
    filter (λ r, SubshellMetric.success r) results in
  let execution_times :=
    or_zero (SubshellMetric.execution_time <$> successful_results) in
  times ← execution_times_dict w execution_times;
  isolation ← _analyze_subshell_isolation results;
  Ok {| StrategyResult.execution_type := "subshell";
        StrategyResult.total_iterations := Py.len results;
        StrategyResult.successful_iterations := Py.len successful_results;
        StrategyResult.failed_iterations :=
          Py.len results - Py.len successful_results;
        StrategyResult.unique_threads_used := None;
        StrategyResult.execution_times := times;
        StrategyResult.detail := SubshellDetail results isolation |}.

(** The body of the loop of [execute_with_subshells], for loop index [i].
    The string [subshell_command] is built and never used: the process is
    started from [command], without a shell. *)
Definition subshell_iteration (w : World) (command : list string) (i : Z)
  : M SubshellMetric.t :=
  k ← next_index;
  o ← subprocess_run w SubshellIteration command 10;
  mret (match o with
        | Completed returncode _ =>
            {| SubshellMetric.iteration := i + 1;
               SubshellMetric.execution_time := elapsed w k;
               SubshellMetric.return_code := returncode;
               SubshellMetric.success := returncode =? 0;
               SubshellMetric.error := None |}
        | TimeoutExpired =>
            {| SubshellMetric.iteration := i + 1;
               SubshellMetric.execution_time := 10;
               SubshellMetric.return_code := -1;
               SubshellMetric.success := false;
               SubshellMetric.error := Some "timeout" |}
        | FileNotFoundError e | OSError e | OtherError e =>
            {| SubshellMetric.iteration := i + 1;
               SubshellMetric.execution_time := 0;
               SubshellMetric.return_code := -1;
               SubshellMetric.success := false;
               SubshellMetric.error := Some e |}
        end).

Definition execute_with_subshells (w : World) (command : list string)
    (iterations : Z) : M StrategyResult.t :=
  results ← for_each (subshell_iteration w command) (Py.range iterations);
  lift (_analyze_subshell_results w results).

(** ** ParallelExecutor, the orchestrator *)

(** The attributes of the object after [__init__]. The command and the
    compilation tag come from [CodeCompiler.compile_if_needed]; they are
    taken as given. *)
Module ParallelExecutor.
Record t : Type := mk {
  file_path : string;
  output_dir : string;
  verbose : bool;
  command : list string;
  compile_info : string
}.
End ParallelExecutor.

Definition _test_command_optimized (w : World) (command : list string)
    (execution_type : string) : M bool :=
  let timeout := if String.eqb execution_type "thread" then 1 else 2 in
  o ← subprocess_run w Preflight command timeout;
  mret (match o with
        | Completed _ _ => true
        | TimeoutExpired => true
        | FileNotFoundError _ | OSError _ => false
        | OtherError _ => true
        end).

Definition _get_system_info (w : World) : SystemInfo.t := host w.

(** [json.dump] into a fresh file; a failure is printed and swallowed. *)
Definition _save_results (w : World) (results : BenchmarkRun.t) : M () :=
  λ st,
  (Ok (),
   if disk_ok w
   then {| spawned := spawned st; saved := saved st ++ [results] |}
   else st).

(** [try: m except: pass] *)
Definition swallow {A} (m : M A) : M () := λ st, (Ok (), (m st).2).

Definition execute (w : World) (self : ParallelExecutor.t)
    (execution_type : string) (iterations : Z)
    (program_args : option string) : M BenchmarkRun.t :=
  let command :=
    match program_args with
    | None | Some EmptyString => ParallelExecutor.command self
    | Some program_args =>
        ParallelExecutor.command self ++ Py.split program_args
    end in
  runnable ← _test_command_optimized w command execution_type;
  if negb runnable
  then raise (Exception
                ("Impossible d'exécuter la commande: "
                 +:+ Py.join " " command))
  else
    k0 ← next_index;
    results ←
      (if String.eqb execution_type "fork"
       then execute_with_fork w command iterations
       else if String.eqb execution_type "thread"
       then
         (if 1 <? iterations
          then swallow (execute_with_threads w command 1)
          else mret ());;
         execute_with_threads w command iterations
       else if String.eqb execution_type "subshell"
       then execute_with_subshells w command iterations
       else raise (ValueError
                     ("Type d'exécution non supporté: "
                      +:+ execution_type)));
    let results :=
      {| BenchmarkRun.results := results;
         BenchmarkRun.total_execution_time := total_elapsed w k0;
         BenchmarkRun.file_path := ParallelExecutor.file_path self;
         BenchmarkRun.command := command;
         BenchmarkRun.compile_info := ParallelExecutor.compile_info self;
         BenchmarkRun.timestamp := now w;
         BenchmarkRun.system_info := _get_system_info w |} in
    _save_results w results;;
    mret results.

(** ** Recommendations *)

Definition rec_failure_rate : string :=
  "Taux d'échec élevé - vérifiez la stabilité du code ou les dépendances".
Definition rec_variability : string :=
  "Forte variabilité détectée - considérez plus d'itérations pour la stabilité".
Definition rec_workload_too_small : string :=
  "Temps d'exécution très faible - augmentez la charge de travail pour des mesures plus précises".
Definition rec_fork_short : string :=
  "Fork: Temps d'exécution très court - le coût de création de processus peut dominer".
Definition rec_fork_failure_rate : string :=
  "Fork: Taux d'échec élevé - vérifiez la stabilité du code".
Definition rec_thread_efficiency : string :=
  "Thread: Faible efficacité - possible contention ou code non thread-safe".
Definition rec_thread_underused : string :=
  "Thread: Sous-utilisation des threads disponibles".
Definition rec_subshell_isolation : string :=
  "Subshell: Efficacité d'isolation faible - considérez l'exécution directe".
Definition rec_slow : string :=
  "Temps d'exécution élevé - considérez l'optimisation du code".
Definition rec_imprecise : string :=
  "Temps d'exécution très faible - les mesures peuvent être imprécises".
Definition rec_acceptable : string :=
  "Performance acceptable avec la méthode d'exécution choisie".

(** [if c: recommendations.append(msg)] *)
Definition append_if (c : bool) (msg : string) (recommendations : list string)
  : list string :=
  if c then recommendations ++ [msg] else recommendations.

(** [results.get('parallel_efficiency', {}).get('success_rate', 1)] and its
    two siblings: the default is used when the sub-dict is absent. *)
Definition fork_success_rate (d : strategy_detail) : Q :=
  match d with
  | ForkDetail _ parallel_eff => ForkEfficiency.success_rate parallel_eff
  | _ => 1%Q
  end.

Definition thread_efficiency_of (d : strategy_detail) : Q :=
  match d with
  | ThreadDetail _ concurrency =>
      ConcurrencyAnalysis.thread_efficiency concurrency
  | _ => 0%Q
  end.

Definition isolation_efficiency_of (d : strategy_detail) : Q :=
  match d with
  | SubshellDetail _ isolation =>
      IsolationAnalysis.isolation_efficiency isolation
  | _ => 0%Q
  end.

Definition _generate_recommendations (w : World) (results : BenchmarkRun.t)
  : list string :=
  let r := BenchmarkRun.results results in
  let exec_type := StrategyResult.execution_type r in
  let exec_times := StrategyResult.execution_times r in
  let success_rate :=
    Py.truediv (StrategyResult.successful_iterations r)
      (Z.max (StrategyResult.total_iterations r) 1) in
  let mean_time := ExecutionTimes.mean exec_times in
  let stdev_time := ExecutionTimes.stdev exec_times in
  let recommendations := [] in
  let recommendations :=
    append_if (Py.lt success_rate 0.9) rec_failure_rate recommendations in
  let recommendations :=
    append_if (Py.gt stdev_time (mean_time * 0.3)) rec_variability
      recommendations in
  let recommendations :=
    append_if (Py.lt mean_time 0.001) rec_workload_too_small
      recommendations in
  let recommendations :=
    if String.eqb exec_type "fork" then
      let recommendations :=
        append_if (Py.lt mean_time 0.01) rec_fork_short recommendations in
      append_if (Py.lt (fork_success_rate (StrategyResult.detail r)) 0.9)
        rec_fork_failure_rate recommendations
    else if String.eqb exec_type "thread" then
      let recommendations :=
        append_if
          (Py.lt (thread_efficiency_of (StrategyResult.detail r)) 0.5)
          rec_thread_efficiency recommendations in
      append_if
        (default 0 (StrategyResult.unique_threads_used r)
         <? Z.min (StrategyResult.total_iterations r)
              (multiprocessing_cpu_count w))
        rec_thread_underused recommendations
    else if String.eqb exec_type "subshell" then
      append_if
        (Py.lt (isolation_efficiency_of (StrategyResult.detail r)) 0.8)
        rec_subshell_isolation recommendations
    else recommendations in
  let recommendations :=
    if Py.gt mean_time 1 then recommendations ++ [rec_slow]
    else if Py.lt mean_time 0.001 then recommendations ++ [rec_imprecise]
    else recommendations in
  match recommendations with
  | [] => [rec_acceptable]
  | _ => recommendations
  end.

(** ** The command line of [main] *)

(** The options as typed; [None] is an option that was not given. *)
Record CommandLine : Type := {
  opt_file : string;
  opt_output : string;
  opt_execution_type : string;
  opt_iterations : option Z;
  opt_args : option string;
  opt_verbose : bool;
  opt_test_level : option string
}.

(** What [parser.parse_args()] returns. *)
Module Namespace.
Record t : Type := mk {
  file : string;
  output : string;
  execution_type : string;
  iterations : Z;
  args : option string;
  verbose : bool;
  test_level : string
}.
End Namespace.

(** [None] when argparse rejects a value that is not among [choices]. *)
Definition parse_args (argv : CommandLine) : option Namespace.t :=
  let test_level := default "medium" (opt_test_level argv) in
  if bool_decide (opt_execution_type argv ∈ ["fork"; "thread"; "subshell"])
     && bool_decide (test_level ∈ ["light"; "medium"; "heavy"])
  then Some {| Namespace.file := opt_file argv;
               Namespace.output := opt_output argv;
               Namespace.execution_type := opt_execution_type argv;
               Namespace.iterations := default 5 (opt_iterations argv);
               Namespace.args := opt_args argv;
               Namespace.verbose := opt_verbose argv;
               Namespace.test_level := test_level |}
  else None.

Definition iterations_map : gmap string Z :=
  {[ "light" := 3; "medium" := 5; "heavy" := 10 ]}.

(** [iterations = iterations_map.get(args.test_level, args.iterations)] *)
Definition main_iterations (args : Namespace.t) : Z :=
  default (Namespace.iterations args)
    (iterations_map !! Namespace.test_level args).

(** [main] from the parsed arguments to the call of [execute]; the file is
    taken to exist and [self] to be the executor built from it. *)
Definition main (w : World) (self : ParallelExecutor.t)
    (args : Namespace.t) : M BenchmarkRun.t :=
  let iterations := main_iterations args in
  execute w self (Namespace.execution_type args) iterations
    (Namespace.args args).

(** ** Vocabulary of the properties *)

(** The dict [execution_times] is never empty, and its [stdev] is [0] on a
    singleton. *)
Definition well_formed_times (t : ExecutionTimes.t) : Prop :=
  (∃ x l, ExecutionTimes.values t = x :: l)
  ∧ (length (ExecutionTimes.values t) = 1%nat → ExecutionTimes.stdev t = 0%Q).

(** The value the thread analysis stores under [actual_parallelism]. *)
Definition parallelism_of (results : list ThreadMetric.t) (total_time : Q)
  : Q :=
  match filter (λ r, ThreadMetric.success r) results with
  | [] => 0%Q
  | x :: l =>
      if Py.gt total_time 0
      then (Py.sum (ThreadMetric.execution_time <$> x :: l) / total_time)%Q
      else 1%Q
  end.

(** [n] more calls of [subprocess.run] from the same place. *)
Definition spawn_n (from : call_site) (command : list string) (timeout : Z)
    (n : nat) (st : Store) : Store :=
  {| spawned := spawned st
                ++ replicate n {| site := from; argv := command;
                                  timeout := timeout |};
     saved := saved st |}.

(** The executor returns a result whose counts add up to [n]. *)
Definition returns_counts (out : result StrategyResult.t * Store) (n : Z)
  : Prop :=
  ∃ r, out.1 = Ok r
       ∧ StrategyResult.successful_iterations r
         + StrategyResult.failed_iterations r
         = StrategyResult.total_iterations r
       ∧ StrategyResult.total_iterations r = n.

(** An analysis returns a dict whose [execution_times] is well formed, and
    falls back to [[0.0]] under [none_succeeded]. *)
Definition times_invariant (out : result StrategyResult.t)
    (none_succeeded : Prop) : Prop :=
  ∃ r, out = Ok r
       ∧ well_formed_times (StrategyResult.execution_times r)
       ∧ (none_succeeded
          → ExecutionTimes.values (StrategyResult.execution_times r)
            = [0%Q]).

(** The pre-flight call could not start the process. *)
Definition is_spawn_failure (o : run_outcome) : bool :=
  match o with
  | FileNotFoundError _ | OSError _ => true
  | Completed _ _ | TimeoutExpired | OtherError _ => false
  end.

(** The command [execute] runs: [self.command] and the extra arguments. *)
Definition resolved_command (self : ParallelExecutor.t)
    (program_args : option string) : list string :=
  match program_args with
  | None | Some EmptyString => ParallelExecutor.command self
  | Some program_args =>
      ParallelExecutor.command self ++ Py.split program_args
  end.

Definition preflight_timeout (execution_type : string) : Z :=
  if String.eqb execution_type "thread" then 1 else 2.

(** [execution_type] is one of the three strategies. *)
Definition supported (execution_type : string) : bool :=
  String.eqb execution_type "fork"
  || String.eqb execution_type "thread"
  || String.eqb execution_type "subshell".

(** The dispatch of [execute]: the body of its [try] block. *)
Definition run_strategy (w : World) (command : list string)
    (execution_type : string) (iterations : Z) : M StrategyResult.t :=
  if String.eqb execution_type "fork"
  then execute_with_fork w command iterations
  else if String.eqb execution_type "thread"
  then
    (if 1 <? iterations
     then swallow (execute_with_threads w command 1)
     else mret ());;
    execute_with_threads w command iterations
  else if String.eqb execution_type "subshell"
  then execute_with_subshells w command iterations
  else raise (ValueError
                ("Type d'exécution non supporté: " +:+ execution_type)).

(** The keys [execute] adds to the dict of the strategy; [k0] is the number
    of processes spawned when the strategy starts. *)
Definition stamp (w : World) (self : ParallelExecutor.t)
    (command : list string) (k0 : nat) (results : StrategyResult.t)
  : BenchmarkRun.t :=
  {| BenchmarkRun.results := results;
     BenchmarkRun.total_execution_time := total_elapsed w k0;
     BenchmarkRun.file_path := ParallelExecutor.file_path self;
     BenchmarkRun.command := command;
     BenchmarkRun.compile_info := ParallelExecutor.compile_info self;
     BenchmarkRun.timestamp := now w;
     BenchmarkRun.system_info := _get_system_info w |}.

(** The record of one call from a given place. *)
Definition call (from : call_site) (command : list string) (timeout : Z)
  : Spawn :=
  {| site := from; argv := command; timeout := timeout |}.

(** A call of [subprocess.run] made by one of the three strategies. *)
Definition is_measured (s : Spawn) : bool :=
  match site s with
  | Preflight => false
  | ForkChild | ThreadTask | SubshellIteration => true
  end.

(** [execute], started in [st], ended in an exception, and no strategy
    has run the command. *)
Definition aborts_before_measuring (st : Store)
    (out : result BenchmarkRun.t * Store) : Prop :=
  is_ok out.1 = false
  ∧ filter (λ s, is_measured s) (drop (length (spawned st)) (spawned out.2))
    = [].

(** ** Sample inputs *)

Definition sample_host : SystemInfo.t :=
  SystemInfo.mk 4 16000000 8000000 0.5 None "linux".

(** Six steps of Newton's iteration, as a stand-in for the host's [sqrt]. *)
Definition newton_sqrt (x : Q) : Q :=
  Nat.iter 6 (λ y, Qred ((y + x / y) / 2)) 1%Q.

(** A host with four CPUs and two workers that alternate; process [k] takes
    [(k + 1) / 10] seconds and the pool one second. *)
Definition sample_world (outcome : nat → run_outcome) : World :=
  {| host := sample_host;
     sqrt := newton_sqrt;
     outcome := outcome;
     elapsed := λ k, ((inject_Z (Z.of_nat k) + 1) / 10)%Q;
     fate := λ _, ChildExits;
     pid := λ k, 1000 + Z.of_nat k;
     thread_ident := λ k, Z.of_nat (k mod 2);
     finish_rank := λ k, k;
     pool_elapsed := λ _, 1%Q;
     total_elapsed := λ _, 2%Q;
     now := 1700000000%Q;
     disk_ok := true |}.

Definition all_succeed : nat → run_outcome :=
  λ _, Completed 0 EmptyString.

(** The second call, and only it, exceeds its timeout. *)
Definition second_times_out : nat → run_outcome :=
  λ k, match k with 1%nat => TimeoutExpired | _ => Completed 0 EmptyString end.

(** The first call, the pre-flight one, exceeds its timeout. *)
Definition first_times_out : nat → run_outcome :=
  λ k, match k with 0%nat => TimeoutExpired | _ => Completed 0 EmptyString end.

Definition empty_store : Store := {| spawned := []; saved := [] |}.

(** A fork iteration that timed out. *)
Definition sample_fork_timeout : ForkMetric.t :=
  ForkMetric.mk 1 10.02 1001 124 false None.

(** Three results of a pool of two workers that ran for half a second: two
    successes of 0.3 s and 0.5 s, and one timeout. *)
Definition sample_thread_results : list ThreadMetric.t :=
  [ThreadMetric.mk 1 0 0.3 0 true None None;
   ThreadMetric.mk 3 0 0.2 124 false None (Some "timeout");
   ThreadMetric.mk 2 1 0.5 0 true None None].

Definition sample_executor : ParallelExecutor.t :=
  ParallelExecutor.mk "bench.py" "out" false ["python3"; "bench.py"] "python".

(** A fork run of five fast iterations that all succeeded: the scenario
    [mean = 0.0005], [stdev = 0], success rate [1.0]. *)
Definition sample_fast_run : BenchmarkRun.t :=
  {| BenchmarkRun.results :=
       {| StrategyResult.execution_type := "fork";
          StrategyResult.total_iterations := 5;
          StrategyResult.successful_iterations := 5;
          StrategyResult.failed_iterations := 0;
          StrategyResult.unique_threads_used := None;
          StrategyResult.execution_times :=
            ExecutionTimes.mk [0.0005; 0.0005; 0.0005; 0.0005; 0.0005]%Q
              0.0005 0.0005 0 0.0005 0.0005;
          StrategyResult.detail :=
            ForkDetail [] (ForkEfficiency.mk 1 0 5 1) |};
     BenchmarkRun.total_execution_time := 0.01;
     BenchmarkRun.file_path := "bench.py";
     BenchmarkRun.command := ["python3"; "bench.py"];
     BenchmarkRun.compile_info := "python";
     BenchmarkRun.timestamp := 1700000000;
     BenchmarkRun.system_info := sample_host |}.

(** The command line [--file bench.py --output out --execution-type fork
    --iterations 7]: no [--test-level]. *)
Definition sample_command_line : CommandLine :=
  {| opt_file := "bench.py";
     opt_output := "out";
     opt_execution_type := "fork";
     opt_iterations := Some 7;
     opt_args := None;
     opt_verbose := false;
     opt_test_level := None |}.

(** ** CodeCompiler

    The paths are POSIX paths ([os.sep] is [/]); [str.lower] is modelled on
    ASCII letters. What the compiler process does, the temporary directory
    and the three file-system calls of [_compile_java] are fields of
    [BuildHost]. [print] calls are left out. *)

Module os_path.

(** [p.rfind(c)]: the last index of [c], or [-1]. [i] is the index of the
    head of [p]. *)
Fixpoint rfind_from (c : ascii) (p : list ascii) (i : Z) (found : Z) : Z :=
  match p with
  | [] => found
  | x :: p' => rfind_from c p' (i + 1) (if Ascii.eqb x c then i else found)
  end.

Definition rfind (c : ascii) (p : list ascii) : Z := rfind_from c p 0 (-1).

(** [os.path.splitext]: the split is at the last dot, when that dot comes
    after the last separator and some character between the two is not a
    dot (the loop that skips leading dots). *)
Definition splitext (p : string) : string * string :=
  let l := list_ascii_of_string p in
  let sepIndex := rfind "/" l in
  let dotIndex := rfind "." l in
  if (sepIndex <? dotIndex)
     && existsb (λ x, negb (Ascii.eqb x "."))
          (take (Z.to_nat (dotIndex - (sepIndex + 1)))
             (drop (Z.to_nat (sepIndex + 1)) l))
  then (string_of_list_ascii (take (Z.to_nat dotIndex) l),
        string_of_list_ascii (drop (Z.to_nat dotIndex) l))
  else (p, EmptyString).

(** [os.path.basename] *)
Definition basename (p : string) : string :=
  let l := list_ascii_of_string p in
  string_of_list_ascii (drop (Z.to_nat (rfind "/" l + 1)) l).

Definition starts_with_sep (p : string) : bool :=
  match p with
  | String c _ => Ascii.eqb c "/"
  | EmptyString => false
  end.

Definition ends_with_sep (p : string) : bool :=
  match rev (list_ascii_of_string p) with
  | c :: _ => Ascii.eqb c "/"
  | [] => false
  end.

(** [os.path.join(a, b)] *)
Definition join (a b : string) : string :=
  if starts_with_sep b then b
  else if String.eqb a EmptyString || ends_with_sep a then a +:+ b
  else a +:+ "/" +:+ b.

End os_path.

Module Str.

Definition lower_ascii (c : ascii) : ascii :=
  let n := Ascii.nat_of_ascii c in
  if (65 <=? n)%nat && (n <=? 90)%nat then Ascii.ascii_of_nat (n + 32) else c.

(** [s.lower()] *)
Definition lower (s : string) : string :=
  string_of_list_ascii (lower_ascii <$> list_ascii_of_string s).

(** [s.replace(a, b)] for two characters. *)
Definition replace (a b : ascii) (s : string) : string :=
  string_of_list_ascii
    ((λ c, if Ascii.eqb c a then b else c) <$> list_ascii_of_string s).

End Str.

(** [compiler argv] is what [subprocess.run(argv, capture_output=True,
    text=True, timeout=30)] does; [timeout_text argv] is [str(e)] for the
    [TimeoutExpired] it may raise. *)
Record BuildHost : Type := {
  temp_dir : string;
  compiler : list string → run_outcome;
  timeout_text : list string → string;
  path_exists : string → bool;
  walk : string → list (string * list string * list string);
  relpath : string → string → string
}.

(** The value every [except Exception as e] handler returns. *)
Definition echo_error (e : string) (tag : string) : list string * string :=
  (["echo"; "Erreur: " +:+ e], tag).

(** The compilation step shared by the four [_compile_*] functions: run
    the compiler; [inl e] is the text of the exception that the [try]
    block raises, [inr ()] a compiler that returned [0]. *)
Definition compile_step (h : BuildHost) (argv : list string)
    (error_prefix : string) : string + () :=
  match compiler h argv with
  | Completed returncode stderr =>
      if negb (returncode =? 0) then inl (error_prefix +:+ stderr)
      else inr ()
  | TimeoutExpired => inl (timeout_text h argv)
  | FileNotFoundError e | OSError e | OtherError e => inl e
  end.

Definition _compile_java (h : BuildHost) (file_path : string)
  : list string * string :=
  let class_name := (os_path.splitext (os_path.basename file_path)).1 in
  match compile_step h ["javac"; "-d"; temp_dir h; file_path]
          "Erreur de compilation Java: " with
  | inl e => echo_error e "java_error"
  | inr _ =>
      let class_file := os_path.join (temp_dir h) (class_name +:+ ".class") in
      if negb (path_exists h class_file) then
        match
          filter (λ entry, class_name +:+ ".class" ∈ entry.2)
            (walk h (temp_dir h))
        with
        | (root, dirs, files) :: _ =>
            let relative_path := relpath h root (temp_dir h) in
            let full_class_name :=
              if negb (String.eqb relative_path ".")
              then Str.replace "/" "." relative_path +:+ "." +:+ class_name
              else class_name in
            (["java"; "-cp"; temp_dir h; full_class_name], "java_compiled")
        | [] =>
            echo_error ("Classe compilée " +:+ class_name
                        +:+ ".class non trouvée") "java_error"
        end
      else (["java"; "-cp"; temp_dir h; class_name], "java_compiled")
  end.

Definition _compile_cpp (h : BuildHost) (file_path : string)
  : list string * string :=
  let output_file := os_path.join (temp_dir h) "cpp_executable" in
  match compile_step h ["g++"; "-O2"; "-o"; output_file; file_path]
          "Erreur de compilation C++: " with
  | inl e => echo_error e "cpp_error"
  | inr _ => ([output_file], "cpp_compiled")
  end.

Definition _compile_c (h : BuildHost) (file_path : string)
  : list string * string :=
  let output_file := os_path.join (temp_dir h) "c_executable" in
  match compile_step h ["gcc"; "-O2"; "-o"; output_file; file_path]
          "Erreur de compilation C: " with
  | inl e => echo_error e "c_error"
  | inr _ => ([output_file], "c_compiled")
  end.

Definition _compile_go (h : BuildHost) (file_path : string)
  : list string * string :=
  let output_file := os_path.join (temp_dir h) "go_executable" in
  match compile_step h ["go"; "build"; "-o"; output_file; file_path]
          "Erreur de compilation Go: " with
  | inl e => echo_error e "go_error"
  | inr _ => ([output_file], "go_compiled")
  end.

Definition command_map (file_path : string)
  : gmap string (list string * string) :=
  {[ ".py" := (["python3"; file_path], "python");
     ".js" := (["node"; file_path], "javascript");
     ".sh" := (["bash"; file_path], "bash");
     ".rb" := (["ruby"; file_path], "ruby");
     ".php" := (["php"; file_path], "php");
     ".pl" := (["perl"; file_path], "perl") ]}.

Definition _get_interpreter_command (file_path : string) (ext : string)
  : list string * string :=
  default (["python3"; file_path], "unknown") (command_map file_path !! ext).

Definition compile_if_needed (h : BuildHost) (file_path : string)
  : list string * string :=
  let ext := Str.lower (os_path.splitext file_path).2 in
  if String.eqb ext ".java" then _compile_java h file_path
  else if String.eqb ext ".cpp" then _compile_cpp h file_path
  else if String.eqb ext ".c" then _compile_c h file_path
  else if String.eqb ext ".go" then _compile_go h file_path
  else _get_interpreter_command file_path ext.

(** [ParallelExecutor.__init__]: the attributes of the new object. *)
Definition ParallelExecutor__init__ (h : BuildHost) (file_path : string)
    (output_dir : string) (verbose : bool) : ParallelExecutor.t :=
  let '(command, compile_info) := compile_if_needed h file_path in
  ParallelExecutor.mk file_path output_dir verbose command compile_info.

(** A build host on which every compiler fails with one line of text. *)
Definition failing_build_host : BuildHost :=
  {| temp_dir := "/tmp/parallel_exec_x1";
     compiler := λ _, Completed 1 "syntax error";
     timeout_text := λ _, "timed out after 30 seconds";
     path_exists := λ _, false;
     walk := λ _, [];
     relpath := λ _ _, "." |}.

(** ** Further vocabulary *)

(** [subprocess.run] raised instead of returning. *)
Definition raises (o : run_outcome) : bool :=
  match o with
  | Completed _ _ => false
  | TimeoutExpired | FileNotFoundError _ | OSError _ | OtherError _ => true
  end.

(** The summary figures of the dict [execution_times] lie among its
    values. *)
Definition bounded_times (t : ExecutionTimes.t) : Prop :=
  In (ExecutionTimes.min t) (ExecutionTimes.values t)
  ∧ In (ExecutionTimes.max t) (ExecutionTimes.values t)
  ∧ Forall (λ v, (ExecutionTimes.min t <= v)%Q
                 ∧ (v <= ExecutionTimes.max t)%Q) (ExecutionTimes.values t)
  ∧ (ExecutionTimes.min t <= ExecutionTimes.mean t)%Q
  ∧ (ExecutionTimes.mean t <= ExecutionTimes.max t)%Q
  ∧ (ExecutionTimes.min t <= ExecutionTimes.median t)%Q
  ∧ (ExecutionTimes.median t <= ExecutionTimes.max t)%Q.

(** The success rate as [_generate_recommendations] computes it. *)
Definition overall_success_rate (r : StrategyResult.t) : Q :=
  Py.truediv (StrategyResult.successful_iterations r)
    (Z.max (StrategyResult.total_iterations r) 1).

(** The success rate the strategy stores in its own sub-dict. *)
Definition strategy_success_rate (r : StrategyResult.t) : Q :=
  match StrategyResult.detail r with
  | ForkDetail _ parallel_eff => ForkEfficiency.success_rate parallel_eff
  | ThreadDetail _ concurrency =>
      ConcurrencyAnalysis.success_rate concurrency
  | SubshellDetail _ isolation => IsolationAnalysis.success_rate isolation
  end.

(** An analysis returns a dict whose two success rates agree. *)
Definition rate_consistent (out : result StrategyResult.t) : Prop :=
  ∃ r, out = Ok r
       ∧ (strategy_success_rate r == overall_success_rate r)%Q
       ∧ (0 <= strategy_success_rate r)%Q
       ∧ (strategy_success_rate r <= 1)%Q.

(** An analysis returns a dict whose summary figures are bounded. *)
Definition returns_bounded_times (out : result StrategyResult.t) : Prop :=
  ∃ r, out = Ok r ∧ bounded_times (StrategyResult.execution_times r).


(** A run in which nothing succeeded. *)
Definition all_failed (out : result StrategyResult.t * Store) (n : Z)
  : Prop :=
  ∃ r, out.1 = Ok r
       ∧ StrategyResult.total_iterations r = n
       ∧ StrategyResult.successful_iterations r = 0
       ∧ StrategyResult.failed_iterations r = n
       ∧ ExecutionTimes.values (StrategyResult.execution_times r) = [0%Q]
       ∧ ExecutionTimes.mean (StrategyResult.execution_times r) = 0%Q
       ∧ ExecutionTimes.stdev (StrategyResult.execution_times r) = 0%Q
       ∧ (strategy_success_rate r == 0)%Q.

(** The tags that [CodeCompiler] gives to a failed compilation. *)
Definition is_error_tag (tag : string) : bool :=
  bool_decide (tag ∈ ["java_error"; "cpp_error"; "c_error"; "go_error"]).

(** The tags of a compilation that succeeded or was not needed. *)
Definition is_ready_tag (tag : string) : bool :=
  bool_decide
    (tag ∈ ["java_compiled"; "cpp_compiled"; "c_compiled"; "go_compiled";
            "python"; "javascript"; "bash"; "ruby"; "php"; "perl";
            "unknown"]).

(** The extensions that [compile_if_needed] sends to a compiler. *)
Definition is_compiled_ext (ext : string) : bool :=
  bool_decide (ext ∈ [".java"; ".cpp"; ".c"; ".go"]).

(** The command is [echo] with one argument. *)
Definition is_echo (command : list string) : bool :=
  match command with
  | [program; _] => String.eqb program "echo"
  | _ => false
  end.

(** The two shapes of what a [_compile_*] function returns. *)
Definition failed_shape (result : list string * string) : Prop :=
  is_error_tag result.2 = true
  ∧ is_ready_tag result.2 = false
  ∧ ∃ e, result.1 = ["echo"; "Erreur: " +:+ e].

Definition ready_shape (result : list string * string) : Prop :=
  is_ready_tag result.2 = true
  ∧ is_error_tag result.2 = false
  ∧ is_echo result.1 = false
  ∧ ∃ program rest, result.1 = program :: rest.

(** A world in which no process can be started. *)
Definition command_not_found : nat → run_outcome :=
  λ _, FileNotFoundError "[Errno 2] No such file or directory".

(** * Properties *)

(** ** The statistics never fail on the lists the program builds *)

Section Statistics.

Lemma or_zero_cons (l : list Q) : ∃ x l', or_zero l = x :: l'.
Proof. destruct l as [|x l']; simpl; eauto. Qed.

Lemma length_insert_sorted (x : Q) (l : list Q) :
  length (Py.insert_sorted x l) = S (length l).
Proof.
  induction l as [|y l IH]; simpl; [reflexivity|].
  destruct (Py.le x y); simpl; [reflexivity|]. now rewrite IH.
Qed.

Lemma length_sorted (l : list Q) : length (Py.sorted l) = length l.
Proof.
  induction l as [|x l IH]; simpl; [reflexivity|].
  unfold Py.sorted in *. simpl. now rewrite length_insert_sorted, IH.
Qed.

Lemma mean_total (x : Q) (l : list Q) :
  ∃ q, statistics.mean (x :: l) = Ok q.
Proof. simpl. eauto. Qed.

Lemma median_total (x : Q) (l : list Q) :
  ∃ q, statistics.median (x :: l) = Ok q.
Proof.
  unfold statistics.median. rewrite length_sorted. simpl length.
  change (S (length l) =? 0)%nat with false. cbv iota.
  destruct (S (length l) mod 2 =? 1)%nat; eauto.
Qed.

Lemma stdev_total (sqrt : Q → Q) (x y : Q) (l : list Q) :
  ∃ q, statistics.stdev sqrt (x :: y :: l) = Ok q.
Proof.
  unfold statistics.stdev, statistics.variance.
  replace (Py.len (x :: y :: l) <? 2) with false.
  - simpl. eauto.
  - symmetry. apply Z.ltb_ge. unfold Py.len. simpl length. lia.
Qed.

(** On a non-empty list the dict is built, holds the list itself under
    [values], and has [stdev] equal to [0] when the list is a singleton. *)
Lemma execution_times_dict_total (w : World) (x : Q) (l : list Q) :
  ∃ t, execution_times_dict w (x :: l) = Ok t
       ∧ ExecutionTimes.values t = x :: l
       ∧ (l = [] → ExecutionTimes.stdev t = 0%Q).
Proof.
  unfold execution_times_dict.
  destruct (mean_total x l) as [m Hm]. rewrite Hm.
  destruct (median_total x l) as [d Hd]. rewrite Hd.
  destruct l as [|y l].
  - simpl. eexists. split; [reflexivity|]. split; reflexivity.
  - destruct (stdev_total (sqrt w) x y l) as [s Hs].
    replace (1 <? Py.len (x :: y :: l)) with true.
    + rewrite Hs. simpl. eexists. split; [reflexivity|].
      split; [reflexivity|]. discriminate.
    + symmetry. apply Z.ltb_lt. unfold Py.len. simpl length. lia.
Qed.

End Statistics.

(** ** What the three analyses return *)

Section Analysis.

Context (w : World).

Lemma execution_times_dict_or_zero (l : list Q) :
  ∃ t, execution_times_dict w (or_zero l) = Ok t
       ∧ ExecutionTimes.values t = or_zero l
       ∧ well_formed_times t.
Proof.
  destruct (or_zero_cons l) as (x & l' & E). rewrite E.
  destruct (execution_times_dict_total w x l') as (t & Ht & Hv & Hs).
  exists t. split; [exact Ht|]. split; [exact Hv|]. split.
  - eauto.
  - rewrite Hv. simpl. intros Hl. apply Hs.
    destruct l'; [reflexivity | discriminate].
Qed.

Lemma _analyze_fork_results_shape (results : list ForkMetric.t) :
  let successful_results := filter (λ r, ForkMetric.success r) results in
  ∃ r, _analyze_fork_results w results = Ok r
       ∧ StrategyResult.total_iterations r = Py.len results
       ∧ StrategyResult.successful_iterations r = Py.len successful_results
       ∧ StrategyResult.failed_iterations r
         = Py.len results - Py.len successful_results
       ∧ ExecutionTimes.values (StrategyResult.execution_times r)
         = or_zero (ForkMetric.execution_time <$> successful_results)
       ∧ well_formed_times (StrategyResult.execution_times r).
Proof.
  intros successful_results. unfold _analyze_fork_results.
  fold successful_results.
  destruct (execution_times_dict_or_zero
              (ForkMetric.execution_time <$> successful_results))
    as (t & Ht & Hv & Hwf).
  rewrite Ht. simpl. eexists. split; [reflexivity|]. simpl. auto.
Qed.

Lemma _analyze_subshell_isolation_total (results : list SubshellMetric.t) :
  ∃ a, _analyze_subshell_isolation results = Ok a.
Proof.
  unfold _analyze_subshell_isolation.
  destruct (filter (λ r, SubshellMetric.success r) results) as [|x l].
  - simpl. eauto.
  - simpl. eauto.
Qed.

Lemma _analyze_subshell_results_shape (results : list SubshellMetric.t) :
  let successful_results :=
    filter (λ r, SubshellMetric.success r) results in
  ∃ r, _analyze_subshell_results w results = Ok r
       ∧ StrategyResult.total_iterations r = Py.len results
       ∧ StrategyResult.successful_iterations r = Py.len successful_results
       ∧ StrategyResult.failed_iterations r
         = Py.len results - Py.len successful_results
       ∧ ExecutionTimes.values (StrategyResult.execution_times r)
         = or_zero (SubshellMetric.execution_time <$> successful_results)
       ∧ well_formed_times (StrategyResult.execution_times r).
Proof.
  intros successful_results. unfold _analyze_subshell_results.
  fold successful_results.
  destruct (execution_times_dict_or_zero
              (SubshellMetric.execution_time <$> successful_results))
    as (t & Ht & Hv & Hwf).
  rewrite Ht.
  destruct (_analyze_subshell_isolation_total results) as [a Ha].
  simpl. rewrite Ha. simpl. eexists. split; [reflexivity|]. simpl. auto.
Qed.

Lemma _analyze_thread_results_shape (results : list ThreadMetric.t)
    (total_time : Q) :
  let successful_results :=
    filter (λ r, ThreadMetric.success r) results in
  ∃ r ca, _analyze_thread_results w results total_time = Ok r
       ∧ StrategyResult.detail r = ThreadDetail results ca
       ∧ StrategyResult.execution_type r = "thread"
       ∧ StrategyResult.total_iterations r = Py.len results
       ∧ StrategyResult.successful_iterations r = Py.len successful_results
       ∧ StrategyResult.failed_iterations r
         = Py.len results - Py.len successful_results
       ∧ ExecutionTimes.values (StrategyResult.execution_times r)
         = or_zero (ThreadMetric.execution_time <$> successful_results)
       ∧ well_formed_times (StrategyResult.execution_times r)
       ∧ ConcurrencyAnalysis.thread_efficiency ca
         = _calculate_thread_efficiency results total_time
       ∧ ConcurrencyAnalysis.actual_parallelism ca
         = parallelism_of results total_time.
Proof.
  intros successful_results.
  destruct results as [|r0 rs].
  - simpl. do 2 eexists. split; [reflexivity|]. simpl.
    repeat split; eauto.
  - unfold _analyze_thread_results, parallelism_of.
    fold successful_results. cbv zeta.
    destruct (execution_times_dict_or_zero
                (ThreadMetric.execution_time <$> successful_results))
      as (t & Ht & Hv & Hwf).
    rewrite Ht.
    destruct (or_zero_cons
                (ThreadMetric.execution_time <$> successful_results))
      as (x & l' & E).
    rewrite E. simpl.
    do 2 eexists. split; [reflexivity|]. simpl.
    rewrite Hv, E.
    repeat split; try reflexivity; try apply Hwf.
    destruct successful_results as [|s0 ss]; [reflexivity|].
    simpl in E. now rewrite E.
Qed.

End Analysis.

(** ** Loops and the store *)

(** Unfolds the binds of [M] and lets the store flow through them. *)
Ltac run_M := unfold mbind, M_bind; simpl.

Section Runs.

Context (w : World).

Lemma cpu_count_pos : 1 ≤ multiprocessing_cpu_count w.
Proof. unfold multiprocessing_cpu_count. lia. Qed.

(** A loop whose body never raises and always changes the store by [step]
    returns one value per element and applies [step] that many times. *)
Lemma for_each_runs {A B} (body : A → M B) (step : Store → Store)
    (l : list A) :
  (∀ a st, ∃ b, body a st = (Ok b, step st)) →
  ∀ st, ∃ bs, for_each body l st = (Ok bs, Nat.iter (length l) step st)
              ∧ length bs = length l.
Proof.
  intros Hbody. induction l as [|a l IH]; intros st.
  - exists []. split; reflexivity.
  - destruct (Hbody a st) as [b Hb].
    destruct (IH (step st)) as (bs & Hbs & Hlen).
    exists (b :: bs). split.
    + cbn [for_each length]. unfold mbind, M_bind. rewrite Hb, Hbs.
      rewrite Nat.iter_succ_r. reflexivity.
    + simpl. now rewrite Hlen.
Qed.

Lemma iter_record_spawn (from : call_site) (command : list string)
    (timeout : Z) (n : nat) (st : Store) :
  Nat.iter n (record_spawn from command timeout) st
  = spawn_n from command timeout n st.
Proof.
  revert st. induction n as [|n IH]; intros [sp sv].
  - unfold spawn_n. simpl. now rewrite app_nil_r.
  - rewrite Nat.iter_succ_r, IH. unfold spawn_n, record_spawn. simpl.
    now rewrite <- app_assoc.
Qed.

Lemma fork_iteration_runs (command : list string) (i : Z) (st : Store) :
  ∃ m, fork_iteration w command i st
       = (Ok m, record_spawn ForkChild command 10 st).
Proof. eexists. reflexivity. Qed.

Lemma run_single_iteration_runs (command : list string) (i : Z)
    (st : Store) :
  ∃ m, run_single_iteration w command i st
       = (Ok m, record_spawn ThreadTask command 10 st).
Proof.
  eexists. unfold run_single_iteration, mbind, M_bind. cbv zeta.
  reflexivity.
Qed.

Lemma subshell_iteration_runs (command : list string) (i : Z)
    (st : Store) :
  ∃ m, subshell_iteration w command i st
       = (Ok m, record_spawn SubshellIteration command 10 st).
Proof. eexists. reflexivity. Qed.

Lemma length_range (n : Z) : length (Py.range n) = Z.to_nat n.
Proof. unfold Py.range. apply length_seqZ. Qed.

Lemma len_range (n : Z) : 0 ≤ n → Py.len (Py.range n) = n.
Proof. intros Hn. unfold Py.len. rewrite length_range. lia. Qed.

(** The lock only orders the appends: no result is lost or repeated. *)
Lemma length_insert_by_rank {A} (x : nat * A) (l : list (nat * A)) :
  length (insert_by_rank x l) = S (length l).
Proof.
  induction l as [|y l IH]; simpl; [reflexivity|].
  destruct (x.1 <=? y.1)%nat; simpl; [reflexivity|]. now rewrite IH.
Qed.

Lemma insert_by_rank_perm {A} (x : nat * A) (l : list (nat * A)) :
  insert_by_rank x l ≡ₚ x :: l.
Proof.
  induction l as [|y l IH]; simpl; [reflexivity|].
  destruct (x.1 <=? y.1)%nat; [reflexivity|].
  rewrite IH. apply Permutation_swap.
Qed.

Lemma snd_imap_pair {A} (rank : nat → nat) (l : list A) :
  (imap (λ j r, (rank j, r)) l).*2 = l.
Proof.
  revert rank. induction l as [|x l IH]; intros rank; [reflexivity|].
  simpl. f_equal. apply (IH (rank ∘ S)).
Qed.

Lemma in_completion_order_perm {A} (k0 : nat) (tasks : list A) :
  in_completion_order w k0 tasks ≡ₚ tasks.
Proof.
  unfold in_completion_order.
  transitivity ((imap (λ j r, (finish_rank w (k0 + j), r)) tasks).*2).
  - apply fmap_Permutation.
    generalize (imap (λ j r, (finish_rank w (k0 + j), r)) tasks).
    intros l. induction l as [|x l IH]; simpl; [reflexivity|].
    rewrite insert_by_rank_perm. now rewrite IH.
  - now rewrite (snd_imap_pair (λ j, finish_rank w (k0 + j))).
Qed.

Lemma length_in_completion_order {A} (k0 : nat) (tasks : list A) :
  length (in_completion_order w k0 tasks) = length tasks.
Proof. apply Permutation_length, in_completion_order_perm. Qed.

End Runs.

(** ** The three executors *)

Section Executors.

Context (w : World).

Lemma execute_with_fork_runs (command : list string) (n : Z) (st : Store) :
  ∃ results,
    length results = Z.to_nat n
    ∧ execute_with_fork w command n st
      = (_analyze_fork_results w results,
         spawn_n ForkChild command 10 (Z.to_nat n) st).
Proof.
  destruct (for_each_runs (fork_iteration w command)
              (record_spawn ForkChild command 10) (Py.range n)
              (fork_iteration_runs w command) st) as (results & Hrun & Hlen).
  exists results. rewrite length_range in Hrun, Hlen. split; [exact Hlen|].
  unfold execute_with_fork, mbind, M_bind. rewrite Hrun.
  now rewrite iter_record_spawn.
Qed.

Lemma execute_with_subshells_runs (command : list string) (n : Z)
    (st : Store) :
  ∃ results,
    length results = Z.to_nat n
    ∧ execute_with_subshells w command n st
      = (_analyze_subshell_results w results,
         spawn_n SubshellIteration command 10 (Z.to_nat n) st).
Proof.
  destruct (for_each_runs (subshell_iteration w command)
              (record_spawn SubshellIteration command 10) (Py.range n)
              (subshell_iteration_runs w command) st)
    as (results & Hrun & Hlen).
  exists results. rewrite length_range in Hrun, Hlen. split; [exact Hlen|].
  unfold execute_with_subshells, mbind, M_bind. rewrite Hrun.
  now rewrite iter_record_spawn.
Qed.

(** With at least one iteration and one CPU the pool is created. *)
Lemma execute_with_threads_runs (command : list string) (n : Z)
    (st : Store) :
  1 ≤ n → 1 ≤ multiprocessing_cpu_count w →
  ∃ results,
    length results = Z.to_nat n
    ∧ execute_with_threads w command n st
      = (_analyze_thread_results w results
           (pool_elapsed w (length (spawned st))),
         spawn_n ThreadTask command 10 (Z.to_nat n) st).
Proof.
  intros Hn Hcpu.
  destruct (for_each_runs (λ i, run_single_iteration w command (i + 1))
              (record_spawn ThreadTask command 10) (Py.range n)
              (λ i, run_single_iteration_runs w command (i + 1)) st)
    as (appended & Hrun & Hlen).
  exists (in_completion_order w (length (spawned st)) appended).
  rewrite length_range in Hrun, Hlen.
  split; [now rewrite length_in_completion_order|].
  unfold execute_with_threads. run_M.
  replace (Z.min (Z.min n (multiprocessing_cpu_count w)) 8 <=? 0)
    with false by (symmetry; apply Z.leb_gt; lia).
  rewrite Hrun. now rewrite iter_record_spawn.
Qed.

(** Without an iteration the pool has no worker, and raises before any
    task is submitted. *)
Lemma execute_with_threads_no_worker (command : list string) (n : Z)
    (st : Store) :
  n ≤ 0 →
  execute_with_threads w command n st
  = (Raise (ValueError "max_workers must be greater than 0"), st).
Proof.
  intros H. unfold execute_with_threads. run_M.
  replace (Z.min (Z.min n (multiprocessing_cpu_count w)) 8 <=? 0)
    with true by (symmetry; apply Z.leb_le; lia).
  reflexivity.
Qed.

(** The counts of each executor add up to the number of iterations. *)
Lemma execute_with_fork_counts (command : list string) (n : Z)
    (st : Store) :
  0 ≤ n → returns_counts (execute_with_fork w command n st) n.
Proof.
  intros Hn.
  destruct (execute_with_fork_runs command n st) as (rs & Hlen & ->).
  destruct (_analyze_fork_results_shape w rs)
    as (r & -> & Ht & Hs & Hf & _).
  exists r. simpl. split; [reflexivity|]. rewrite Ht, Hs, Hf.
  split; [lia|]. unfold Py.len. rewrite Hlen. lia.
Qed.

Lemma execute_with_threads_counts (command : list string) (n : Z)
    (st : Store) :
  1 ≤ n → 1 ≤ multiprocessing_cpu_count w →
  returns_counts (execute_with_threads w command n st) n.
Proof.
  intros Hn Hcpu.
  destruct (execute_with_threads_runs command n st Hn Hcpu)
    as (rs & Hlen & ->).
  destruct (_analyze_thread_results_shape w rs
              (pool_elapsed w (length (spawned st))))
    as (r & ca & -> & _ & _ & Ht & Hs & Hf & _).
  exists r. simpl. split; [reflexivity|]. rewrite Ht, Hs, Hf.
  split; [lia|]. unfold Py.len. rewrite Hlen. lia.
Qed.

Lemma execute_with_subshells_counts (command : list string) (n : Z)
    (st : Store) :
  0 ≤ n → returns_counts (execute_with_subshells w command n st) n.
Proof.
  intros Hn.
  destruct (execute_with_subshells_runs command n st) as (rs & Hlen & ->).
  destruct (_analyze_subshell_results_shape w rs)
    as (r & -> & Ht & Hs & Hf & _).
  exists r. simpl. split; [reflexivity|]. rewrite Ht, Hs, Hf.
  split; [lia|]. unfold Py.len. rewrite Hlen. lia.
Qed.

End Executors.

(** C1. For each of the three strategies and every requested iteration
    count [n >= 1], the executor returns a result with
    [successful_iterations + failed_iterations = total_iterations = n]. *)
Theorem C1_iteration_counts (w : World) (command : list string) (n : Z)
    (st : Store) :
  1 ≤ n →
  returns_counts (execute_with_fork w command n st) n
  ∧ returns_counts (execute_with_threads w command n st) n
  ∧ returns_counts (execute_with_subshells w command n st) n.
Proof.
  intros Hn. split; [|split].
  - apply execute_with_fork_counts. lia.
  - apply execute_with_threads_counts; [exact Hn | apply cpu_count_pos].
  - apply execute_with_subshells_counts. lia.
Qed.

Lemma C1_iteration_counts_witness :
  1 ≤ 3
  ∧ returns_counts
      (execute_with_fork (sample_world second_times_out)
         ["python3"; "bench.py"] 3 empty_store) 3
  ∧ returns_counts
      (execute_with_threads (sample_world second_times_out)
         ["python3"; "bench.py"] 3 empty_store) 3
  ∧ returns_counts
      (execute_with_subshells (sample_world second_times_out)
         ["python3"; "bench.py"] 3 empty_store) 3.
Proof.
  split; [lia|].
  apply (C1_iteration_counts (sample_world second_times_out)
           ["python3"; "bench.py"] 3 empty_store). lia.
Defined.

(** ** Comparisons and sums of rationals *)

Section Rationals.

Lemma lt_spec (a b : Q) : Py.lt a b = true ↔ (a < b)%Q.
Proof.
  unfold Py.lt. rewrite negb_true_iff. split.
  - intros H. apply Qnot_le_lt. intros Hle.
    apply Qle_bool_iff in Hle. congruence.
  - intros H. destruct (Qle_bool b a) eqn:E; [|reflexivity].
    apply Qle_bool_iff in E. exfalso. exact (Qlt_not_le _ _ H E).
Qed.

Lemma lt_false (a b : Q) : Py.lt a b = false ↔ (b <= a)%Q.
Proof.
  unfold Py.lt. rewrite negb_false_iff. apply Qle_bool_iff.
Qed.

Lemma gt_spec (a b : Q) : Py.gt a b = true ↔ (b < a)%Q.
Proof. apply lt_spec. Qed.

Lemma le_false (a b : Q) : (b < a)%Q → Py.le a b = false.
Proof.
  intros H. unfold Py.le. destruct (Qle_bool a b) eqn:E; [|reflexivity].
  apply Qle_bool_iff in E. exfalso. exact (Qlt_not_le _ _ H E).
Qed.

Lemma foldl_plus_nonneg (l : list Q) (a : Q) :
  (0 <= a)%Q → Forall (λ x, (0 <= x)%Q) l → (0 <= foldl Qplus a l)%Q.
Proof.
  revert a. induction l as [|x l IH]; intros a Ha Hl; simpl; [exact Ha|].
  inversion Hl as [|? ? Hx Hl']; subst. apply IH; [|exact Hl'].
  rewrite <- (Qplus_0_r 0). now apply Qplus_le_compat.
Qed.

Lemma sum_nonneg (l : list Q) :
  Forall (λ x, (0 <= x)%Q) l → (0 <= Py.sum l)%Q.
Proof. apply foldl_plus_nonneg. apply Qle_refl. Qed.

Lemma min2_Qmin (a b : Q) : (Py.min2 a b == Qmin b a)%Q.
Proof.
  unfold Py.min2. destruct (Py.lt b a) eqn:E.
  - apply lt_spec in E. symmetry. apply Q.min_l. now apply Qlt_le_weak.
  - apply lt_false in E. symmetry. now apply Q.min_r.
Qed.

Lemma distinct_pos (x : Z) (l : list Z) : 1 ≤ Py.distinct (x :: l).
Proof.
  unfold Py.distinct.
  assert (size (list_to_set (x :: l) : gset Z) ≠ 0%nat) as H; [|lia].
  apply size_non_empty_iff. intros Hempty.
  assert (x ∈ (list_to_set (x :: l) : gset Z)) as Hx
    by (apply elem_of_list_to_set; left).
  rewrite Hempty in Hx. set_solver.
Qed.

End Rationals.

(** C4. The dict [execution_times] built by each of the three analyses has
    a non-empty [values], which is [[0.0]] when no iteration succeeded, and
    a [stdev] of [0] whenever [values] has one element. The analyses never
    raise. *)
Theorem C4_values_never_empty (w : World)
    (fork_results : list ForkMetric.t)
    (thread_results : list ThreadMetric.t) (total_time : Q)
    (subshell_results : list SubshellMetric.t) :
  times_invariant (_analyze_fork_results w fork_results)
    (filter (λ r, ForkMetric.success r) fork_results = [])
  ∧ times_invariant (_analyze_thread_results w thread_results total_time)
      (filter (λ r, ThreadMetric.success r) thread_results = [])
  ∧ times_invariant (_analyze_subshell_results w subshell_results)
      (filter (λ r, SubshellMetric.success r) subshell_results = []).
Proof.
  unfold times_invariant. repeat split.
  - destruct (_analyze_fork_results_shape w fork_results)
      as (r & -> & _ & _ & _ & Hv & Hwf).
    exists r. repeat split; try apply Hwf.
    intros Hnone. rewrite Hv, Hnone. reflexivity.
  - destruct (_analyze_thread_results_shape w thread_results total_time)
      as (r & ca & -> & _ & _ & _ & _ & _ & Hv & Hwf & _).
    exists r. repeat split; try apply Hwf.
    intros Hnone. rewrite Hv, Hnone. reflexivity.
  - destruct (_analyze_subshell_results_shape w subshell_results)
      as (r & -> & _ & _ & _ & Hv & Hwf).
    exists r. repeat split; try apply Hwf.
    intros Hnone. rewrite Hv, Hnone. reflexivity.
Qed.

Lemma C4_values_never_empty_witness :
  ∃ r, _analyze_fork_results (sample_world all_succeed)
         [sample_fork_timeout] = Ok r
       ∧ ExecutionTimes.values (StrategyResult.execution_times r) = [0%Q]
       ∧ ExecutionTimes.stdev (StrategyResult.execution_times r) = 0%Q.
Proof.
  destruct (C4_values_never_empty (sample_world all_succeed)
              [sample_fork_timeout] [] 0%Q [])
    as ((r & Hr & Hwf & Hzero) & _).
  exists r. split; [exact Hr|].
  assert (ExecutionTimes.values (StrategyResult.execution_times r) = [0%Q])
    as Hv by (apply Hzero; reflexivity).
  split; [exact Hv|]. apply Hwf. rewrite Hv. reflexivity.
Defined.

(** C5. For the thread strategy, [actual_parallelism] is the sum of the
    durations of the successful iterations divided by the wall-clock time
    of the pool (a positive time); it is not negative when none of these
    durations is; and it is [0] when no iteration succeeded. *)
Theorem C5_actual_parallelism (w : World) (results : list ThreadMetric.t)
    (total_time : Q) :
  let durations :=
    ThreadMetric.execution_time
      <$> filter (λ r, ThreadMetric.success r) results in
  ∃ r ca,
    _analyze_thread_results w results total_time = Ok r
    ∧ StrategyResult.detail r = ThreadDetail results ca
    ∧ ((0 < total_time)%Q
       → (ConcurrencyAnalysis.actual_parallelism ca
          == Py.sum durations / total_time)%Q)
    ∧ (Forall (λ d, (0 <= d)%Q) durations
       → (0 <= ConcurrencyAnalysis.actual_parallelism ca)%Q)
    ∧ (durations = [] → ConcurrencyAnalysis.actual_parallelism ca = 0%Q).
Proof.
  intros durations.
  destruct (_analyze_thread_results_shape w results total_time)
    as (r & ca & Hr & Hd & _ & _ & _ & _ & _ & _ & _ & Hp).
  exists r, ca. split; [exact Hr|]. split; [exact Hd|].
  rewrite Hp. unfold parallelism_of. subst durations.
  split; [|split].
  - intros Hpos.
    destruct (filter (λ r, ThreadMetric.success r) results) as [|x l].
    + unfold Py.sum. simpl. unfold Qdiv. now rewrite Qmult_0_l.
    + apply gt_spec in Hpos. rewrite Hpos. reflexivity.
  - intros Hd'.
    destruct (filter (λ r, ThreadMetric.success r) results) as [|x l];
      [apply Qle_refl|].
    destruct (Py.gt total_time 0) eqn:E; [|discriminate].
    apply gt_spec in E. apply Qle_shift_div_l; [exact E|].
    rewrite Qmult_0_l. now apply sum_nonneg.
  - intros Hnone. apply fmap_nil_inv in Hnone. now rewrite Hnone.
Qed.

Lemma C5_actual_parallelism_witness :
  ∃ r ca,
    _analyze_thread_results (sample_world all_succeed)
      sample_thread_results 0.5 = Ok r
    ∧ StrategyResult.detail r = ThreadDetail sample_thread_results ca
    ∧ (ConcurrencyAnalysis.actual_parallelism ca == 1.6)%Q
    ∧ (0 <= ConcurrencyAnalysis.actual_parallelism ca)%Q.
Proof.
  destruct (C5_actual_parallelism (sample_world all_succeed)
              sample_thread_results 0.5)
    as (r & ca & Hr & Hd & Hquot & Hnonneg & _).
  exists r, ca. split; [exact Hr|]. split; [exact Hd|]. split.
  - eapply Qeq_trans; [apply Hquot; reflexivity|]. reflexivity.
  - apply Hnonneg. repeat constructor; by vm_compute.
Defined.

(** C6. For the thread strategy, [thread_efficiency] is the smaller of [1]
    and the sum of the durations of the successful iterations divided by
    the wall-clock time of the pool (a positive time) times the number of
    distinct workers; it is [0] when no iteration succeeded. *)
Theorem C6_thread_efficiency (w : World) (results : list ThreadMetric.t)
    (total_time : Q) :
  let durations :=
    ThreadMetric.execution_time
      <$> filter (λ r, ThreadMetric.success r) results in
  let workers := Py.distinct (ThreadMetric.thread_id <$> results) in
  ∃ r ca,
    _analyze_thread_results w results total_time = Ok r
    ∧ StrategyResult.detail r = ThreadDetail results ca
    ∧ ((0 < total_time)%Q
       → (ConcurrencyAnalysis.thread_efficiency ca
          == Qmin 1 (Py.sum durations / (total_time * inject_Z workers)))%Q)
    ∧ (durations = [] → ConcurrencyAnalysis.thread_efficiency ca = 0%Q).
Proof.
  intros durations workers.
  destruct (_analyze_thread_results_shape w results total_time)
    as (r & ca & Hr & Hd & _ & _ & _ & _ & _ & _ & He & _).
  exists r, ca. split; [exact Hr|]. split; [exact Hd|].
  rewrite He. unfold _calculate_thread_efficiency.
  subst durations workers. split.
  - intros Hpos.
    destruct (filter (λ r, ThreadMetric.success r) results) as [|x l] eqn:E.
    + unfold Py.sum. simpl. unfold Qdiv. rewrite Qmult_0_l.
      symmetry. now apply Q.min_r.
    + rewrite (le_false _ _ Hpos).
      destruct results as [|r0 rs]; [discriminate E|].
      assert (0 < total_time
                  * inject_Z (Py.distinct
                                (ThreadMetric.thread_id <$> r0 :: rs)))%Q
        as Hden.
      { apply Qmult_lt_0_compat; [exact Hpos|].
        pose proof (distinct_pos (ThreadMetric.thread_id r0)
                      (ThreadMetric.thread_id <$> rs)) as Hw.
        rewrite <- fmap_cons in Hw.
        change 0%Q with (inject_Z 0). rewrite <- Zlt_Qlt. lia. }
      apply gt_spec in Hden. rewrite Hden. apply min2_Qmin.
  - intros Hnone. apply fmap_nil_inv in Hnone. now rewrite Hnone.
Qed.

Lemma C6_thread_efficiency_witness :
  ∃ r ca,
    _analyze_thread_results (sample_world all_succeed)
      sample_thread_results 0.5 = Ok r
    ∧ StrategyResult.detail r = ThreadDetail sample_thread_results ca
    ∧ (ConcurrencyAnalysis.thread_efficiency ca == 0.8)%Q.
Proof.
  destruct (C6_thread_efficiency (sample_world all_succeed)
              sample_thread_results 0.5)
    as (r & ca & Hr & Hd & Hquot & _).
  exists r, ca. split; [exact Hr|]. split; [exact Hd|].
  eapply Qeq_trans; [apply Hquot; reflexivity|]. by vm_compute.
Defined.

(** ** Recommendations *)

Section Recommendations.

(** The messages are pairwise different where the proofs below need it. *)
Lemma rec_failure_rate_distinct :
  rec_failure_rate ≠ rec_variability
  ∧ rec_failure_rate ≠ rec_workload_too_small
  ∧ rec_failure_rate ≠ rec_fork_short
  ∧ rec_failure_rate ≠ rec_fork_failure_rate
  ∧ rec_failure_rate ≠ rec_thread_efficiency
  ∧ rec_failure_rate ≠ rec_thread_underused
  ∧ rec_failure_rate ≠ rec_subshell_isolation
  ∧ rec_failure_rate ≠ rec_slow
  ∧ rec_failure_rate ≠ rec_imprecise
  ∧ rec_failure_rate ≠ rec_acceptable.
Proof. repeat split; discriminate. Qed.

Lemma rec_fork_failure_rate_distinct :
  rec_fork_failure_rate ≠ rec_failure_rate
  ∧ rec_fork_failure_rate ≠ rec_variability
  ∧ rec_fork_failure_rate ≠ rec_workload_too_small
  ∧ rec_fork_failure_rate ≠ rec_fork_short
  ∧ rec_fork_failure_rate ≠ rec_thread_efficiency
  ∧ rec_fork_failure_rate ≠ rec_thread_underused
  ∧ rec_fork_failure_rate ≠ rec_subshell_isolation
  ∧ rec_fork_failure_rate ≠ rec_slow
  ∧ rec_fork_failure_rate ≠ rec_imprecise
  ∧ rec_fork_failure_rate ≠ rec_acceptable.
Proof. repeat split; discriminate. Qed.

End Recommendations.

(** C7. The recommendation list is a function of the run: the only thing
    read outside it is the CPU count of the host, which the run records.
    For a run with [mean = 0.0005], [stdev = 0] and a success rate of
    [1.0], the list holds the two messages about a too small execution
    time and neither of the messages about a high failure rate (the
    strategy's own one being ruled out when its [success_rate] is [1.0]
    as well). *)
Theorem C7_recommendation_scenario (w : World) (run : BenchmarkRun.t) :
  let r := BenchmarkRun.results run in
  let times := StrategyResult.execution_times r in
  let recommendations := _generate_recommendations w run in
  (∀ w', multiprocessing_cpu_count w' = multiprocessing_cpu_count w
         → _generate_recommendations w' run = recommendations)
  ∧ ((ExecutionTimes.mean times == 0.0005)%Q
     → (ExecutionTimes.stdev times == 0)%Q
     → (Py.truediv (StrategyResult.successful_iterations r)
          (Z.max (StrategyResult.total_iterations r) 1) == 1)%Q
     → In rec_workload_too_small recommendations
       ∧ In rec_imprecise recommendations
       ∧ ¬ In rec_failure_rate recommendations
       ∧ ((fork_success_rate (StrategyResult.detail r) == 1)%Q
          → ¬ In rec_fork_failure_rate recommendations)).
Proof.
  intros r times recommendations. split.
  { intros w' Hcpu. subst recommendations.
    unfold _generate_recommendations. now rewrite Hcpu. }
  intros Hmean Hstdev Hrate. subst recommendations.
  assert (Py.lt (Py.truediv (StrategyResult.successful_iterations r)
                   (Z.max (StrategyResult.total_iterations r) 1)) 0.9
          = false) as B1.
  { apply lt_false. rewrite Hrate. by vm_compute. }
  assert (Py.gt (ExecutionTimes.stdev times)
            (ExecutionTimes.mean times * 0.3) = false) as B2.
  { apply lt_false. rewrite Hmean, Hstdev. by vm_compute. }
  assert (Py.lt (ExecutionTimes.mean times) 0.001 = true) as B3.
  { apply lt_spec. rewrite Hmean. reflexivity. }
  assert (Py.gt (ExecutionTimes.mean times) 1 = false) as B4.
  { apply lt_false. rewrite Hmean. by vm_compute. }
  assert (Py.lt (ExecutionTimes.mean times) 0.01 = true) as B5.
  { apply lt_spec. rewrite Hmean. reflexivity. }
  assert ((fork_success_rate (StrategyResult.detail r) == 1)%Q
          → Py.lt (fork_success_rate (StrategyResult.detail r)) 0.9
            = false) as B6.
  { intros Hf. apply lt_false. rewrite Hf. by vm_compute. }
  destruct rec_failure_rate_distinct
    as (D1 & D2 & D3 & D4 & D5 & D6 & D7 & D8 & D9 & D10).
  destruct rec_fork_failure_rate_distinct
    as (F1 & F2 & F3 & F4 & F5 & F6 & F7 & F8 & F9 & F10).
  unfold _generate_recommendations. fold r. fold times. cbv zeta.
  rewrite B1, B2, B3, B4.
  destruct (String.eqb (StrategyResult.execution_type r) "fork").
  - rewrite B5.
    destruct (Py.lt (fork_success_rate (StrategyResult.detail r)) 0.9)
      eqn:E; simpl.
    + repeat split; try tauto; intros; intuition congruence.
    + repeat split; try tauto; intros; intuition congruence.
  - destruct (String.eqb (StrategyResult.execution_type r) "thread").
    + destruct (Py.lt (thread_efficiency_of (StrategyResult.detail r)) 0.5);
        destruct (default 0 (StrategyResult.unique_threads_used r)
                  <? Z.min (StrategyResult.total_iterations r)
                       (multiprocessing_cpu_count w));
        simpl; repeat split; try tauto; intros; intuition congruence.
    + destruct (String.eqb (StrategyResult.execution_type r) "subshell").
      * destruct (Py.lt (isolation_efficiency_of (StrategyResult.detail r))
                    0.8);
          simpl; repeat split; try tauto; intros; intuition congruence.
      * simpl; repeat split; try tauto; intros; intuition congruence.
Qed.

Lemma C7_recommendation_scenario_witness :
  In rec_workload_too_small
    (_generate_recommendations (sample_world all_succeed) sample_fast_run)
  ∧ In rec_imprecise
      (_generate_recommendations (sample_world all_succeed) sample_fast_run)
  ∧ ¬ In rec_failure_rate
        (_generate_recommendations (sample_world all_succeed)
           sample_fast_run)
  ∧ ¬ In rec_fork_failure_rate
        (_generate_recommendations (sample_world all_succeed)
           sample_fast_run).
Proof.
  destruct (C7_recommendation_scenario (sample_world all_succeed)
              sample_fast_run) as [_ H].
  destruct H as (H1 & H2 & H3 & H4); [reflexivity..|].
  split; [exact H1|]. split; [exact H2|]. split; [exact H3|].
  apply H4. reflexivity.
Defined.

(** The list of the scenario on a fork run. *)
Example recommendations_of_sample_fast_run :
  _generate_recommendations (sample_world all_succeed) sample_fast_run
  = [rec_workload_too_small; rec_fork_short; rec_imprecise].
Proof. reflexivity. Qed.

(** ** The iteration count of [main] *)

(** Whatever [--iterations] says, the count comes from the test level, and
    the level is [medium] when [--test-level] is absent. *)
Lemma main_iterations_from_level (argv : CommandLine) (args : Namespace.t) :
  parse_args argv = Some args →
  main_iterations args
  = match opt_test_level argv with
    | Some "light" => 3
    | Some "heavy" => 10
    | _ => 5
    end.
Proof.
  unfold parse_args. intros H.
  destruct (bool_decide
              (opt_execution_type argv ∈ ["fork"; "thread"; "subshell"]));
    [|discriminate H].
  destruct (bool_decide
              (default "medium" (opt_test_level argv)
                 ∈ ["light"; "medium"; "heavy"])) eqn:E; [|discriminate H].
  simpl in H. injection H as <-. unfold main_iterations. simpl.
  apply bool_decide_eq_true in E.
  destruct (opt_test_level argv) as [level|]; simpl in *; [|reflexivity].
  repeat (apply elem_of_cons in E as [->|E]; [reflexivity|]).
  by apply elem_of_nil in E.
Qed.

(** C8. With [--iterations 7] and no [--test-level], [main] parses the
    option as [7] and then passes [5] to [execute]: the count of the
    default level [medium] replaces it, and the run has five iterations. *)
Theorem C8_iterations_option_overridden :
  ∃ args run st',
    parse_args sample_command_line = Some args
    ∧ Namespace.iterations args = 7
    ∧ main_iterations args = 5
    ∧ main (sample_world all_succeed) sample_executor args empty_store
      = (Ok run, st')
    ∧ StrategyResult.total_iterations (BenchmarkRun.results run) = 5.
Proof.
  do 3 eexists. split; [reflexivity|]. split; [reflexivity|].
  split; [reflexivity|]. split; [by vm_compute|]. reflexivity.
Qed.

(** ** One iteration that exceeds its timeout *)

Section Timeouts.

Context (w : World) (command : list string) (st : Store).

(** Fork: the child exits with [124] and the parent records it. *)
Lemma fork_iteration_timeout (i : Z) :
  outcome w (length (spawned st)) = TimeoutExpired →
  fate w (length (spawned st)) = ChildExits →
  ∃ m, fork_iteration w command i st
       = (Ok m, record_spawn ForkChild command 10 st)
       ∧ ForkMetric.iteration m = i + 1
       ∧ ForkMetric.exit_status m = 124
       ∧ ForkMetric.success m = false.
Proof.
  intros Ho Hf. eexists. split.
  - unfold fork_iteration. run_M.
    unfold os_waitpid. rewrite Ho, Hf. simpl. reflexivity.
  - simpl. auto.
Qed.

(** Thread: the worker records [124]. *)
Lemma run_single_iteration_timeout (iteration_num : Z) :
  outcome w (length (spawned st)) = TimeoutExpired →
  ∃ m, run_single_iteration w command iteration_num st
       = (Ok m, record_spawn ThreadTask command 10 st)
       ∧ ThreadMetric.iteration m = iteration_num
       ∧ ThreadMetric.return_code m = 124
       ∧ ThreadMetric.success m = false.
Proof.
  intros Ho. eexists. split.
  - unfold run_single_iteration. run_M. rewrite Ho. reflexivity.
  - simpl. auto.
Qed.

(** Subshell: the loop records [-1], the code it also gives to any other
    exception, and a fixed duration of ten seconds. *)
Lemma subshell_iteration_timeout (i : Z) :
  outcome w (length (spawned st)) = TimeoutExpired →
  ∃ m, subshell_iteration w command i st
       = (Ok m, record_spawn SubshellIteration command 10 st)
       ∧ SubshellMetric.iteration m = i + 1
       ∧ SubshellMetric.return_code m = -1
       ∧ SubshellMetric.success m = false
       ∧ SubshellMetric.error m = Some "timeout".
Proof.
  intros Ho. eexists. split.
  - unfold subshell_iteration. run_M. rewrite Ho. reflexivity.
  - simpl. auto.
Qed.

End Timeouts.

(** C2. A subshell run of three iterations whose second process exceeds the
    ten-second timeout: the run goes on to the third iteration and holds
    exactly one failed result for the second, but its [return_code] is
    [-1], not [124]. *)
Theorem C2_subshell_timeout_return_code :
  ∃ r st' m1 m2 m3 isolation,
    execute_with_subshells (sample_world second_times_out)
      ["sleep"; "30"] 3 empty_store = (Ok r, st')
    ∧ StrategyResult.detail r = SubshellDetail [m1; m2; m3] isolation
    ∧ SubshellMetric.iteration m1 = 1
    ∧ SubshellMetric.iteration m2 = 2
    ∧ SubshellMetric.iteration m3 = 3
    ∧ SubshellMetric.success m2 = false
    ∧ SubshellMetric.error m2 = Some "timeout"
    ∧ SubshellMetric.return_code m2 = -1
    ∧ StrategyResult.failed_iterations r = 1.
Proof.
  do 6 eexists. split; [by vm_compute|]. simpl.
  split; [reflexivity|]. repeat split.
Qed.

(** The same world under the two other strategies: the sentinel is there. *)
Example fork_timeout_exit_status :
  ∃ r st' m1 m2 m3 efficiency,
    execute_with_fork (sample_world second_times_out)
      ["sleep"; "30"] 3 empty_store = (Ok r, st')
    ∧ StrategyResult.detail r = ForkDetail [m1; m2; m3] efficiency
    ∧ ForkMetric.iteration m2 = 2
    ∧ ForkMetric.success m2 = false
    ∧ ForkMetric.exit_status m2 = 124.
Proof.
  do 6 eexists. split; [by vm_compute|]. simpl.
  split; [reflexivity|]. repeat split.
Qed.

Example thread_timeout_return_code :
  ∃ r st' m1 m2 m3 concurrency,
    execute_with_threads (sample_world second_times_out)
      ["sleep"; "30"] 3 empty_store = (Ok r, st')
    ∧ StrategyResult.detail r = ThreadDetail [m1; m2; m3] concurrency
    ∧ ThreadMetric.iteration m2 = 2
    ∧ ThreadMetric.success m2 = false
    ∧ ThreadMetric.return_code m2 = 124.
Proof.
  do 6 eexists. split; [by vm_compute|]. simpl.
  split; [reflexivity|]. repeat split.
Qed.

(** ** The orchestrator *)

Section Orchestrator.

Context (w : World) (self : ParallelExecutor.t).

Lemma _test_command_optimized_runs (command : list string)
    (execution_type : string) (st : Store) :
  _test_command_optimized w command execution_type st
  = (Ok (negb (is_spawn_failure (outcome w (length (spawned st))))),
     record_spawn Preflight command (preflight_timeout execution_type) st).
Proof.
  unfold _test_command_optimized, mbind, M_bind, subprocess_run. simpl.
  destruct (outcome w (length (spawned st))); reflexivity.
Qed.

(** A pre-flight call that cannot start the process ends [execute] at
    once: the store holds that call and nothing else new. *)
Lemma execute_spawn_failure (execution_type : string) (iterations : Z)
    (program_args : option string) (st : Store) :
  let command := resolved_command self program_args in
  is_spawn_failure (outcome w (length (spawned st))) = true →
  execute w self execution_type iterations program_args st
  = (Raise (Exception ("Impossible d'exécuter la commande: "
                       +:+ Py.join " " command)),
     record_spawn Preflight command (preflight_timeout execution_type) st).
Proof.
  intros command Hfail. unfold execute.
  change (match program_args with
          | None | Some EmptyString => ParallelExecutor.command self
          | Some a => ParallelExecutor.command self ++ Py.split a
          end) with command.
  unfold mbind at 1, M_bind at 1.
  rewrite _test_command_optimized_runs, Hfail. reflexivity.
Qed.

(** After a pre-flight call that passed, [execute] is the strategy, then
    the stamping and saving of its result. *)
Lemma execute_passed (execution_type : string) (iterations : Z)
    (program_args : option string) (st : Store) :
  let command := resolved_command self program_args in
  let st1 :=
    record_spawn Preflight command (preflight_timeout execution_type) st in
  is_spawn_failure (outcome w (length (spawned st))) = false →
  execute w self execution_type iterations program_args st
  = match run_strategy w command execution_type iterations st1 with
    | (Ok r, st2) =>
        let run := stamp w self command (length (spawned st1)) r in
        (Ok run, (_save_results w run st2).2)
    | (Raise e, st2) => (Raise e, st2)
    end.
Proof.
  intros command st1 Hpass. unfold execute.
  change (match program_args with
          | None | Some EmptyString => ParallelExecutor.command self
          | Some a => ParallelExecutor.command self ++ Py.split a
          end) with command.
  unfold mbind at 1, M_bind at 1.
  rewrite _test_command_optimized_runs, Hpass. fold st1.
  change (if String.eqb execution_type "fork" then _ else _)
    with (run_strategy w command execution_type iterations).
  cbn [negb]. unfold mbind, M_bind, next_index.
  destruct (run_strategy w command execution_type iterations st1)
    as [[r|e] st2]; reflexivity.
Qed.

Lemma run_strategy_unsupported (command : list string)
    (execution_type : string) (iterations : Z) (st : Store) :
  supported execution_type = false →
  run_strategy w command execution_type iterations st
  = (Raise (ValueError
              ("Type d'exécution non supporté: " +:+ execution_type)), st).
Proof.
  unfold supported, run_strategy. intros H.
  apply orb_false_elim in H as [H Hsub].
  apply orb_false_elim in H as [Hfork Hthread].
  now rewrite Hfork, Hthread, Hsub.
Qed.

(** The thread strategy runs a pool of one task first when more than one
    iteration is asked for, and drops what that pool returns. *)
Lemma run_strategy_thread (command : list string) (iterations : Z)
    (st : Store) :
  run_strategy w command "thread" iterations st
  = execute_with_threads w command iterations
      (if 1 <? iterations
       then (execute_with_threads w command 1 st).2
       else st).
Proof.
  unfold run_strategy. simpl String.eqb. cbv iota.
  unfold mbind, M_bind. destruct (1 <? iterations); reflexivity.
Qed.

End Orchestrator.

Section Gate.

Context (w : World) (self : ParallelExecutor.t).

Lemma run_strategy_counts (command : list string) (execution_type : string)
    (n : Z) (st : Store) :
  supported execution_type = true →
  1 ≤ n → 1 ≤ multiprocessing_cpu_count w →
  returns_counts (run_strategy w command execution_type n st) n.
Proof.
  unfold supported, run_strategy. intros Hsup Hn Hcpu.
  destruct (String.eqb execution_type "fork").
  { apply execute_with_fork_counts. lia. }
  destruct (String.eqb execution_type "thread").
  { unfold mbind, M_bind.
    destruct (1 <? n); simpl; now apply execute_with_threads_counts. }
  destruct (String.eqb execution_type "subshell"); [|discriminate Hsup].
  apply execute_with_subshells_counts. lia.
Qed.

(** With a supported strategy, at least one iteration and a pre-flight
    call that passed, [execute] returns a run of [n] iterations. *)
Lemma execute_counts (execution_type : string) (n : Z)
    (program_args : option string) (st : Store) :
  supported execution_type = true →
  1 ≤ n → 1 ≤ multiprocessing_cpu_count w →
  is_spawn_failure (outcome w (length (spawned st))) = false →
  ∃ run,
    (execute w self execution_type n program_args st).1 = Ok run
    ∧ StrategyResult.successful_iterations (BenchmarkRun.results run)
      + StrategyResult.failed_iterations (BenchmarkRun.results run)
      = StrategyResult.total_iterations (BenchmarkRun.results run)
    ∧ StrategyResult.total_iterations (BenchmarkRun.results run) = n.
Proof.
  intros Hsup Hn Hcpu Hpass. rewrite (execute_passed w self); [|exact Hpass].
  cbv zeta.
  destruct (run_strategy_counts (resolved_command self program_args)
              execution_type n
              (record_spawn Preflight (resolved_command self program_args)
                 (preflight_timeout execution_type) st) Hsup Hn Hcpu)
    as (r & Hr & Hsum & Htotal).
  destruct (run_strategy w _ execution_type n _) as [[r'|e] st2];
    simpl in Hr; [|discriminate Hr].
  injection Hr as ->. eexists. split; [reflexivity|]. simpl. auto.
Qed.

Lemma measured_after_preflight (command : list string) (timeout : Z)
    (st : Store) :
  filter (λ s, is_measured s)
    (drop (length (spawned st))
       (spawned (record_spawn Preflight command timeout st))) = [].
Proof. unfold record_spawn. simpl. now rewrite drop_app_length. Qed.

End Gate.

(** C3 (amended). For a supported strategy and at least one iteration,
    [execute] ends in an exception before any
    strategy has run the command exactly when the pre-flight call fails
    with [FileNotFoundError] or another [OSError]; after any other
    pre-flight outcome, a timeout among them, it returns a run of [n]
    iterations. *)
Theorem C3_preflight_gate (w : World) (self : ParallelExecutor.t)
    (execution_type : string) (n : Z) (program_args : option string)
    (st : Store) :
  supported execution_type = true →
  1 ≤ n →
  let o := outcome w (length (spawned st)) in
  let out := execute w self execution_type n program_args st in
  (aborts_before_measuring st out ↔ is_spawn_failure o = true)
  ∧ (is_spawn_failure o = false
     → ∃ run, out.1 = Ok run
              ∧ StrategyResult.total_iterations (BenchmarkRun.results run)
                = n)
  ∧ (o = TimeoutExpired
     → ∃ run, out.1 = Ok run
              ∧ StrategyResult.total_iterations (BenchmarkRun.results run)
                = n).
Proof.
  intros Hsup Hn o out. pose proof (cpu_count_pos w) as Hcpu.
  assert (is_spawn_failure o = false
          → ∃ run, out.1 = Ok run
                   ∧ StrategyResult.total_iterations
                       (BenchmarkRun.results run) = n) as Hpass;
    [|split; [|split; [exact Hpass|]]].
  - intros E.
    destruct (execute_counts w self execution_type n program_args st
                Hsup Hn Hcpu E) as (run & Hrun & _ & Htotal).
    exists run. split; [exact Hrun | exact Htotal].
  - subst out. destruct (is_spawn_failure o) eqn:E.
    + split; [reflexivity|]. intros _.
      rewrite (execute_spawn_failure w self); [|exact E]. split.
      * reflexivity.
      * apply measured_after_preflight.
    + split; [|discriminate]. intros [Hraise _].
      destruct (execute_counts w self execution_type n program_args st
                  Hsup Hn Hcpu E) as (run & Hrun & _).
      rewrite Hrun in Hraise. discriminate Hraise.
  - intros E. apply Hpass. now rewrite E.
Qed.

Lemma C3_preflight_gate_witness :
  supported "subshell" = true
  ∧ 1 ≤ 3
  ∧ outcome (sample_world first_times_out) (length (spawned empty_store))
    = TimeoutExpired
  ∧ ∃ run,
      (execute (sample_world first_times_out) sample_executor "subshell" 3
         None empty_store).1 = Ok run
      ∧ StrategyResult.total_iterations (BenchmarkRun.results run) = 3.
Proof.
  split; [reflexivity|]. split; [lia|]. split; [reflexivity|].
  destruct (C3_preflight_gate (sample_world first_times_out)
              sample_executor "subshell" 3 None empty_store)
    as (_ & _ & Hpass); [reflexivity | lia |].
  apply Hpass. reflexivity.
Defined.

(** C3, as stated, fails on an unsupported strategy: the pre-flight call
    completes, and [execute] still ends in an exception before any strategy
    has run the command. *)
Lemma C3_unsupported_type_aborts :
  aborts_before_measuring empty_store
    (execute (sample_world all_succeed) sample_executor "process" 3 None
       empty_store)
  ∧ is_spawn_failure
      (outcome (sample_world all_succeed) (length (spawned empty_store)))
    = false.
Proof. split; [split|]; reflexivity. Qed.

(** C9 (amended). With an execution type that is none of the three
    strategies, [execute] ends in an exception; no strategy runs, and
    nothing is returned or saved. The pre-flight call comes first, though:
    the resolved command has been executed once, with the two-second
    timeout, when the exception is raised. *)
Theorem C9_unsupported_type (w : World) (self : ParallelExecutor.t)
    (execution_type : string) (n : Z) (program_args : option string)
    (st : Store) :
  supported execution_type = false →
  let out := execute w self execution_type n program_args st in
  is_ok out.1 = false
  ∧ out.2 = record_spawn Preflight (resolved_command self program_args) 2 st
  ∧ saved out.2 = saved st
  ∧ aborts_before_measuring st out.
Proof.
  intros Hsup out.
  assert (preflight_timeout execution_type = 2) as Ht.
  { unfold preflight_timeout. unfold supported in Hsup.
    apply orb_false_elim in Hsup as [Hsup _].
    apply orb_false_elim in Hsup as [_ ->]. reflexivity. }
  assert (is_ok out.1 = false
          ∧ out.2 = record_spawn Preflight
                      (resolved_command self program_args) 2 st) as [H1 H2].
  { subst out.
    destruct (is_spawn_failure (outcome w (length (spawned st)))) eqn:E.
    - rewrite (execute_spawn_failure w self); [|exact E].
      rewrite Ht. split; reflexivity.
    - rewrite (execute_passed w self); [|exact E]. cbv zeta.
      rewrite run_strategy_unsupported; [|exact Hsup].
      rewrite Ht. split; reflexivity. }
  split; [exact H1|]. split; [exact H2|]. split.
  - rewrite H2. reflexivity.
  - split; [exact H1|]. rewrite H2. apply measured_after_preflight.
Qed.

Lemma C9_unsupported_type_witness :
  supported "gpu" = false
  ∧ is_ok (execute (sample_world all_succeed) sample_executor "gpu" 3 None
             empty_store).1 = false
  ∧ (execute (sample_world all_succeed) sample_executor "gpu" 3 None
       empty_store).2
    = record_spawn Preflight ["python3"; "bench.py"] 2 empty_store.
Proof.
  split; [reflexivity|].
  destruct (C9_unsupported_type (sample_world all_succeed) sample_executor
              "gpu" 3 None empty_store) as (H1 & H2 & _); [reflexivity|].
  split; [exact H1 | exact H2].
Defined.

(** C9, as stated, fails: when [execute] raises for the unsupported type
    ["gpu"], the resolved command has already been executed, by the
    pre-flight call. *)
Lemma C9_command_executed_by_preflight :
  (execute (sample_world all_succeed) sample_executor "gpu" 3 None
     empty_store).1
  = Raise (ValueError "Type d'exécution non supporté: gpu")
  ∧ spawned (execute (sample_world all_succeed) sample_executor "gpu" 3 None
               empty_store).2
    = [call Preflight (ParallelExecutor.command sample_executor) 2].
Proof. split; reflexivity. Qed.

Section WarmUp.

Context (w : World).

Lemma spawned_save_results (run : BenchmarkRun.t) (st : Store) :
  spawned (_save_results w run st).2 = spawned st.
Proof. unfold _save_results. simpl. destruct (disk_ok w); reflexivity. Qed.

(** Whatever the swallowed computation does, [swallow] does not raise. *)
Lemma swallow_never_raises {A} (m : M A) (st : Store) :
  swallow m st = (Ok (), (m st).2).
Proof. reflexivity. Qed.

(** A pool of one task runs the command once. *)
Lemma warm_up_store (command : list string) (st : Store) :
  1 ≤ multiprocessing_cpu_count w →
  (execute_with_threads w command 1 st).2
  = record_spawn ThreadTask command 10 st.
Proof.
  intros Hcpu.
  destruct (execute_with_threads_runs w command 1 st) as (rs & _ & ->);
    [lia | exact Hcpu |].
  reflexivity.
Qed.

End WarmUp.

(** C10. For the thread strategy with more than one iteration (and a
    pre-flight call that passed), [execute] first runs a pool of one task,
    whose result is dropped, and then the measured pool of [n] tasks: the
    returned result is the one of the measured pool alone, while the
    command has been executed [n + 2] times, the pre-flight call
    included. *)
Theorem C10_thread_warm_up (w : World) (self : ParallelExecutor.t)
    (n : Z) (program_args : option string) (st : Store) :
  1 < n →
  is_spawn_failure (outcome w (length (spawned st))) = false →
  let command := resolved_command self program_args in
  let st1 := record_spawn Preflight command 1 st in
  let warm_up := execute_with_threads w command 1 st1 in
  let measured := execute_with_threads w command n warm_up.2 in
  let out := execute w self "thread" n program_args st in
  warm_up.2 = record_spawn ThreadTask command 10 st1
  ∧ (∃ run, out.1 = Ok run
            ∧ measured.1 = Ok (BenchmarkRun.results run)
            ∧ StrategyResult.total_iterations (BenchmarkRun.results run)
              = n)
  ∧ spawned out.2
    = spawned st
      ++ call Preflight command 1
         :: call ThreadTask command 10
         :: replicate (Z.to_nat n) (call ThreadTask command 10)
  ∧ Z.of_nat (length (spawned out.2)) = Z.of_nat (length (spawned st)) + n + 2.
Proof.
  intros Hn Hpass command st1 warm_up measured out.
  pose proof (cpu_count_pos w) as Hcpu.
  assert (warm_up.2 = record_spawn ThreadTask command 10 st1) as Hwarm
    by (apply warm_up_store; exact Hcpu).
  assert (out = match measured with
                | (Ok r, st3) =>
                    let run := stamp w self command (length (spawned st1)) r in
                    (Ok run, (_save_results w run st3).2)
                | (Raise e, st3) => (Raise e, st3)
                end) as Hout.
  { subst out. rewrite (execute_passed w self); [|exact Hpass]. cbv zeta.
    change (preflight_timeout "thread") with 1. fold command. fold st1.
    rewrite run_strategy_thread.
    replace (1 <? n) with true by (symmetry; apply Z.ltb_lt; lia).
    reflexivity. }
  destruct (execute_with_threads_runs w command n warm_up.2)
    as (rs & Hlen & Hrun); [lia | exact Hcpu |].
  destruct (_analyze_thread_results_shape w rs
              (pool_elapsed w (length (spawned warm_up.2))))
    as (r & ca & Hr & _ & _ & Ht & _).
  fold measured in Hrun. rewrite Hr in Hrun. rewrite Hrun in Hout.
  cbv zeta in Hout.
  assert (spawned out.2
          = spawned st
            ++ call Preflight command 1
               :: call ThreadTask command 10
               :: replicate (Z.to_nat n) (call ThreadTask command 10))
    as Hsp.
  { rewrite Hout. cbn [snd]. rewrite spawned_save_results, Hwarm.
    unfold spawn_n, record_spawn, st1, call. simpl.
    now rewrite <- !app_assoc. }
  split; [exact Hwarm|]. split; [|split; [exact Hsp|]].
  - exists (stamp w self command (length (spawned st1)) r).
    rewrite Hout, Hrun. simpl. split; [reflexivity|].
    split; [reflexivity|]. rewrite Ht. unfold Py.len. rewrite Hlen. lia.
  - rewrite Hsp, length_app. simpl. rewrite length_replicate. lia.
Qed.

Lemma C10_thread_warm_up_witness :
  1 < 3
  ∧ (∃ run,
       (execute (sample_world all_succeed) sample_executor "thread" 3 None
          empty_store).1 = Ok run
       ∧ StrategyResult.total_iterations (BenchmarkRun.results run) = 3)
  ∧ Z.of_nat
      (length
         (spawned
            (execute (sample_world all_succeed) sample_executor "thread" 3
               None empty_store).2))
    = Z.of_nat (length (spawned empty_store)) + 3 + 2.
Proof.
  split; [lia|].
  destruct (C10_thread_warm_up (sample_world all_succeed) sample_executor 3
              None empty_store)
    as (_ & (run & Hrun & _ & Htotal) & _ & Hcalls);
    [lia | reflexivity |].
  split; [exists run; split; [exact Hrun | exact Htotal] | exact Hcalls].
Defined.

(** * Further properties of the code *)

(** ** ForkExecutor: what one iteration records *)

(** X1. A fork iteration never raises and records an [exit_status] that is
    [-1] or lies in [0..255]; [success] holds exactly when [exit_status] is
    [0], that is when the child exited normally after the command returned
    a code that is [0] modulo 256; [error] is set exactly when
    [os.waitpid] raised. *)
Theorem fork_iteration_exit_status (w : World) (command : list string)
    (i : Z) (st : Store) :
  let k := length (spawned st) in
  ∃ m, fork_iteration w command i st
       = (Ok m, record_spawn ForkChild command 10 st)
       ∧ ForkMetric.iteration m = i + 1
       ∧ (ForkMetric.exit_status m = -1
          ∨ 0 ≤ ForkMetric.exit_status m ≤ 255)
       ∧ (ForkMetric.success m = true ↔ ForkMetric.exit_status m = 0)
       ∧ (ForkMetric.success m = true
          ↔ fate w k = ChildExits
            ∧ ∃ returncode stderr,
                outcome w k = Completed returncode stderr
                ∧ returncode mod 256 = 0)
       ∧ (is_Some (ForkMetric.error m) ↔ ∃ msg, fate w k = WaitFails msg).
Proof.
  intros k. eexists. split; [reflexivity|]. fold k. unfold os_waitpid.
  assert (∀ code, Z.land code 255 = code mod 256) as Hland.
  { intros code. change 255 with (Z.ones 8). now rewrite Z.land_ones. }
  destruct (fate w k) as [|signal|msg]; simpl.
  - rewrite Hland.
    pose proof (Z.mod_pos_bound (child_exit_code (outcome w k)) 256) as Hb.
    split; [reflexivity|]. split; [right; lia|].
    split; [apply Z.eqb_eq|]. split.
    + rewrite Z.eqb_eq.
      destruct (outcome w k) as [rc err| |e|e|e]; simpl;
        (split; [intros H; split; [reflexivity|] | intros [_ (rc' & err' & Ho & H)]]);
        try discriminate; eauto.
      injection Ho as -> ->. exact H.
    + split; [intros [x Hx]; discriminate Hx | intros [msg Hm]; discriminate Hm].
  - split; [reflexivity|]. split; [left; reflexivity|].
    split; [split; discriminate|]. split.
    + split; [discriminate | intros [Hf _]; discriminate Hf].
    + split; [intros [x Hx]; discriminate Hx | intros [msg Hm]; discriminate Hm].
  - split; [reflexivity|]. split; [left; reflexivity|].
    split; [split; discriminate|]. split.
    + split; [discriminate | intros [Hf _]; discriminate Hf].
    + split; [eauto | intros _; eexists; reflexivity].
Qed.

(** ** Success rates *)

Section Rates.

Lemma length_filter_complement {A} (P : A → Prop) `{∀ x, Decision (P x)}
    (l : list A) :
  (length (filter P l) + length (filter (λ x, ¬ P x) l))%nat = length l.
Proof.
  rewrite <- length_app. apply Permutation_length, filter_app_complement.
Qed.

(** [a / n] for [0 <= a <= n] and [0 < n] lies in the unit interval. *)
Lemma truediv_unit_interval (a n : Z) :
  0 ≤ a ≤ n → 0 < n → (0 <= Py.truediv a n)%Q ∧ (Py.truediv a n <= 1)%Q.
Proof.
  intros Ha Hn. unfold Py.truediv.
  assert (0 < inject_Z n)%Q as Hn'
    by (change 0%Q with (inject_Z 0); rewrite <- Zlt_Qlt; exact Hn).
  split.
  - apply Qle_shift_div_l; [exact Hn'|]. rewrite Qmult_0_l.
    change 0%Q with (inject_Z 0). rewrite <- Zle_Qle. lia.
  - apply Qle_shift_div_r; [exact Hn'|]. rewrite Qmult_1_l.
    rewrite <- Zle_Qle. lia.
Qed.

Lemma truediv_complement (a b n : Z) :
  a + b = n → 0 < n → (Py.truediv a n + Py.truediv b n == 1)%Q.
Proof.
  intros Hab Hn. unfold Py.truediv. subst n.
  rewrite inject_Z_plus. field. rewrite <- inject_Z_plus.
  change 0%Q with (inject_Z 0). rewrite inject_Z_injective. lia.
Qed.

Lemma len_filter_bounds {A} (P : A → Prop) `{∀ x, Decision (P x)}
    (l : list A) :
  0 ≤ Py.len (filter P l) ≤ Py.len l.
Proof. unfold Py.len. pose proof (length_filter P l). lia. Qed.

End Rates.

(** X2. The fork efficiency of a non-empty result list has a success rate
    and a failure rate that add up to [1]; on an empty list both are [0].
    [process_creation_efficiency] is the success rate under another
    name. *)
Theorem fork_rates_complementary (results : list ForkMetric.t) :
  let e := _calculate_fork_efficiency results in
  match results with
  | [] => ForkEfficiency.success_rate e = 0%Q
          ∧ ForkEfficiency.failure_rate e = 0%Q
  | _ :: _ =>
      (ForkEfficiency.success_rate e + ForkEfficiency.failure_rate e == 1)%Q
      ∧ (0 <= ForkEfficiency.success_rate e)%Q
      ∧ (0 <= ForkEfficiency.failure_rate e)%Q
  end
  ∧ ForkEfficiency.process_creation_efficiency e
    = ForkEfficiency.success_rate e
  ∧ ForkEfficiency.average_processes e = Py.len results.
Proof.
  intros e. split; [|split; reflexivity].
  destruct results as [|r0 rs]; [split; reflexivity|].
  subst e. unfold _calculate_fork_efficiency. cbv zeta. simpl ForkEfficiency.success_rate.
  simpl ForkEfficiency.failure_rate.
  set (l := r0 :: rs).
  assert (0 < Py.len l) as Hpos by (unfold Py.len; subst l; simpl; lia).
  pose proof (length_filter_complement (λ r, ForkMetric.success r) l) as Hsum.
  pose proof (len_filter_bounds (λ r, ForkMetric.success r) l) as Hs.
  pose proof (len_filter_bounds (λ r, ¬ ForkMetric.success r) l) as Hf.
  split; [|split].
  - apply truediv_complement; [|exact Hpos]. unfold Py.len. lia.
  - now apply truediv_unit_interval.
  - now apply truediv_unit_interval.
Qed.

(** ** The dicts of the analyses, in full *)

Section Dicts.

Context (w : World).

Lemma _analyze_fork_results_eq (results : list ForkMetric.t) :
  let successful_results := filter (λ r, ForkMetric.success r) results in
  ∃ times,
    execution_times_dict w
      (or_zero (ForkMetric.execution_time <$> successful_results))
    = Ok times
    ∧ _analyze_fork_results w results
      = Ok {| StrategyResult.execution_type := "fork";
              StrategyResult.total_iterations := Py.len results;
              StrategyResult.successful_iterations :=
                Py.len successful_results;
              StrategyResult.failed_iterations :=
                Py.len results - Py.len successful_results;
              StrategyResult.unique_threads_used := None;
              StrategyResult.execution_times := times;
              StrategyResult.detail :=
                ForkDetail results (_calculate_fork_efficiency results) |}.
Proof.
  intros successful_results. unfold _analyze_fork_results.
  fold successful_results.
  destruct (execution_times_dict_or_zero w
              (ForkMetric.execution_time <$> successful_results))
    as (t & Ht & _).
  exists t. split; [exact Ht|]. rewrite Ht. reflexivity.
Qed.

Lemma _analyze_subshell_results_eq (results : list SubshellMetric.t) :
  let successful_results :=
    filter (λ r, SubshellMetric.success r) results in
  ∃ times isolation,
    execution_times_dict w
      (or_zero (SubshellMetric.execution_time <$> successful_results))
    = Ok times
    ∧ _analyze_subshell_isolation results = Ok isolation
    ∧ _analyze_subshell_results w results
      = Ok {| StrategyResult.execution_type := "subshell";
              StrategyResult.total_iterations := Py.len results;
              StrategyResult.successful_iterations :=
                Py.len successful_results;
              StrategyResult.failed_iterations :=
                Py.len results - Py.len successful_results;
              StrategyResult.unique_threads_used := None;
              StrategyResult.execution_times := times;
              StrategyResult.detail := SubshellDetail results isolation |}.
Proof.
  intros successful_results. unfold _analyze_subshell_results.
  fold successful_results.
  destruct (execution_times_dict_or_zero w
              (SubshellMetric.execution_time <$> successful_results))
    as (t & Ht & _).
  destruct (_analyze_subshell_isolation_total results) as [a Ha].
  exists t, a. split; [exact Ht|]. split; [exact Ha|].
  rewrite Ht. simpl. rewrite Ha. reflexivity.
Qed.

(** The thread analysis of a non-empty list. *)
Lemma _analyze_thread_results_eq (r0 : ThreadMetric.t)
    (rs : list ThreadMetric.t) (total_time : Q) :
  let results := r0 :: rs in
  let successful_results :=
    filter (λ r, ThreadMetric.success r) results in
  let unique_threads := Py.distinct (ThreadMetric.thread_id <$> results) in
  ∃ times r ca,
    execution_times_dict w
      (or_zero (ThreadMetric.execution_time <$> successful_results))
    = Ok times
    ∧ _analyze_thread_results w results total_time = Ok r
    ∧ StrategyResult.execution_times r = times
    ∧ StrategyResult.unique_threads_used r = Some unique_threads
    ∧ StrategyResult.total_iterations r = Py.len results
    ∧ StrategyResult.successful_iterations r = Py.len successful_results
    ∧ StrategyResult.detail r = ThreadDetail results ca
    ∧ ConcurrencyAnalysis.total_threads ca = unique_threads
    ∧ ConcurrencyAnalysis.success_rate ca
      = Py.truediv (Py.len successful_results) (Py.len results).
Proof.
  intros results successful_results unique_threads.
  unfold _analyze_thread_results. fold results.
  fold successful_results. fold unique_threads. cbv zeta.
  destruct (execution_times_dict_or_zero w
              (ThreadMetric.execution_time <$> successful_results))
    as (t & Ht & _).
  destruct (or_zero_cons
              (ThreadMetric.execution_time <$> successful_results))
    as (x & l' & E).
  subst results. cbv iota. rewrite Ht. rewrite E. simpl.
  do 3 eexists. split; [reflexivity|]. split; [reflexivity|]. simpl.
  repeat split; reflexivity.
Qed.

End Dicts.

(** X3. In the dict of every analysis the success rate stored by the
    strategy ([parallel_efficiency], [concurrency_analysis] or
    [isolation_analysis]) is the rate that [_generate_recommendations]
    computes from [successful_iterations] and [total_iterations], and it
    lies between [0] and [1]. *)
Theorem strategy_rate_matches_counts (w : World)
    (fork_results : list ForkMetric.t)
    (thread_results : list ThreadMetric.t) (total_time : Q)
    (subshell_results : list SubshellMetric.t) :
  rate_consistent (_analyze_fork_results w fork_results)
  ∧ rate_consistent (_analyze_thread_results w thread_results total_time)
  ∧ rate_consistent (_analyze_subshell_results w subshell_results).
Proof.
  unfold rate_consistent.
  assert (∀ a n : Z, 0 ≤ a ≤ n →
            let rate := if n =? 0 then 0%Q else Py.truediv a n in
            (rate == Py.truediv a (Z.max n 1))%Q
            ∧ (0 <= rate)%Q ∧ (rate <= 1)%Q) as Hrate.
  { intros a n Ha rate. subst rate. destruct (n =? 0) eqn:E.
    - apply Z.eqb_eq in E. subst n. assert (a = 0) as -> by lia.
      split; [by vm_compute|]. split; by vm_compute.
    - apply Z.eqb_neq in E. replace (Z.max n 1) with n by lia.
      split; [reflexivity|]. apply truediv_unit_interval; lia. }
  split; [|split].
  - destruct (_analyze_fork_results_eq w fork_results) as (t & _ & ->).
    eexists. split; [reflexivity|].
    unfold strategy_success_rate, overall_success_rate. simpl.
    pose proof (len_filter_bounds (λ r, ForkMetric.success r) fork_results)
      as Hb.
    specialize (Hrate _ _ Hb). cbv zeta in Hrate.
    destruct fork_results as [|r0 rs]; [exact Hrate|].
    replace (Py.len (r0 :: rs) =? 0) with false in Hrate; [exact Hrate|].
    symmetry. apply Z.eqb_neq. unfold Py.len. simpl. lia.
  - destruct thread_results as [|r0 rs].
    + eexists. split; [reflexivity|]. by vm_compute.
    + destruct (_analyze_thread_results_eq w r0 rs total_time)
        as (t & r & ca & _ & -> & _ & _ & Ht & Hs & Hd & _ & Hr).
      exists r. split; [reflexivity|].
      unfold strategy_success_rate, overall_success_rate.
      rewrite Hd, Hr, Ht, Hs.
      pose proof (len_filter_bounds (λ r, ThreadMetric.success r) (r0 :: rs))
        as Hb.
      specialize (Hrate _ _ Hb). cbv zeta in Hrate.
      replace (Py.len (r0 :: rs) =? 0) with false in Hrate; [exact Hrate|].
      symmetry. apply Z.eqb_neq. unfold Py.len. simpl. lia.
  - destruct (_analyze_subshell_results_eq w subshell_results)
      as (t & a & _ & Ha & ->).
    eexists. split; [reflexivity|].
    unfold strategy_success_rate, overall_success_rate. simpl.
    pose proof (len_filter_bounds (λ r, SubshellMetric.success r)
                  subshell_results) as Hb.
    specialize (Hrate _ _ Hb). cbv zeta in Hrate.
    unfold _analyze_subshell_isolation in Ha.
    destruct subshell_results as [|r0 rs].
    + simpl in Ha. injection Ha as <-. exact Hrate.
    + replace (Py.len (r0 :: rs) =? 0) with false in Hrate.
      2:{ symmetry. apply Z.eqb_neq. unfold Py.len. simpl. lia. }
      destruct (filter (λ r, SubshellMetric.success r) (r0 :: rs));
        simpl in Ha; injection Ha as <-; exact Hrate.
Qed.

(** ** The summary figures lie among the values *)

Section Bounds.

Lemma min2_cases (a b : Q) :
  (Py.min2 a b = a ∨ Py.min2 a b = b)
  ∧ (Py.min2 a b <= a)%Q ∧ (Py.min2 a b <= b)%Q.
Proof.
  unfold Py.min2. destruct (Py.lt b a) eqn:E.
  - apply lt_spec in E. split; [now right|]. split.
    + now apply Qlt_le_weak.
    + apply Qle_refl.
  - apply lt_false in E. split; [now left|]. split.
    + apply Qle_refl.
    + exact E.
Qed.

Lemma max2_cases (a b : Q) :
  (Py.max2 a b = a ∨ Py.max2 a b = b)
  ∧ (a <= Py.max2 a b)%Q ∧ (b <= Py.max2 a b)%Q.
Proof.
  unfold Py.max2, Py.gt. destruct (Py.lt a b) eqn:E.
  - apply lt_spec in E. split; [now right|]. split.
    + now apply Qlt_le_weak.
    + apply Qle_refl.
  - apply lt_false in E. split; [now left|]. split.
    + apply Qle_refl.
    + exact E.
Qed.

Lemma foldl_min2_spec (l : list Q) (a : Q) :
  In (foldl Py.min2 a l) (a :: l)
  ∧ Forall (λ v, (foldl Py.min2 a l <= v)%Q) (a :: l).
Proof.
  revert a. induction l as [|x l IH]; intros a; simpl.
  - split; [now left|]. repeat constructor. apply Qle_refl.
  - destruct (IH (Py.min2 a x)) as [Hin Hall].
    destruct (min2_cases a x) as (Hcase & Ha & Hx).
    inversion Hall as [|? ? Hm Hl]; subst. split.
    + destruct Hin as [Hin|Hin]; [|now right; right].
      rewrite <- Hin. destruct Hcase as [E|E]; [left | right; left]; now symmetry.
    + constructor; [eapply Qle_trans; eauto|].
      constructor; [eapply Qle_trans; eauto | exact Hl].
Qed.

Lemma foldl_max2_spec (l : list Q) (a : Q) :
  In (foldl Py.max2 a l) (a :: l)
  ∧ Forall (λ v, (v <= foldl Py.max2 a l)%Q) (a :: l).
Proof.
  revert a. induction l as [|x l IH]; intros a; simpl.
  - split; [now left|]. repeat constructor. apply Qle_refl.
  - destruct (IH (Py.max2 a x)) as [Hin Hall].
    destruct (max2_cases a x) as (Hcase & Ha & Hx).
    inversion Hall as [|? ? Hm Hl]; subst. split.
    + destruct Hin as [Hin|Hin]; [|now right; right].
      rewrite <- Hin. destruct Hcase as [E|E]; [left | right; left]; now symmetry.
    + constructor; [eapply Qle_trans; eauto|].
      constructor; [eapply Qle_trans; eauto | exact Hl].
Qed.

(** A sum of [n] numbers between [lo] and [hi], started from [a]. *)
Lemma foldl_plus_bounds (lo hi : Q) (l : list Q) (a : Q) :
  Forall (λ v, (lo <= v)%Q ∧ (v <= hi)%Q) l →
  (a + inject_Z (Py.len l) * lo <= foldl Qplus a l)%Q
  ∧ (foldl Qplus a l <= a + inject_Z (Py.len l) * hi)%Q.
Proof.
  revert a. induction l as [|x l IH]; intros a Hl.
  - unfold Py.len. simpl. split; ring_simplify; apply Qle_refl.
  - inversion Hl as [|? ? [Hlo Hhi] Hl']; subst.
    destruct (IH (a + x)%Q Hl') as [IHlo IHhi]. simpl.
    assert (inject_Z (Py.len (x :: l)) == inject_Z (Py.len l) + 1)%Q as E.
    { unfold Py.len. simpl length. rewrite Nat2Z.inj_succ.
      unfold Z.succ. now rewrite inject_Z_plus. }
    rewrite E. split.
    + eapply Qle_trans; [|exact IHlo].
      setoid_replace (a + (inject_Z (Py.len l) + 1) * lo)%Q
        with ((a + lo) + inject_Z (Py.len l) * lo)%Q using relation Qeq by ring.
      apply Qplus_le_compat; [|apply Qle_refl].
      apply Qplus_le_compat; [apply Qle_refl | exact Hlo].
    + eapply Qle_trans; [exact IHhi|].
      setoid_replace (a + (inject_Z (Py.len l) + 1) * hi)%Q
        with ((a + hi) + inject_Z (Py.len l) * hi)%Q using relation Qeq by ring.
      apply Qplus_le_compat; [|apply Qle_refl].
      apply Qplus_le_compat; [apply Qle_refl | exact Hhi].
Qed.

Lemma mean_bounds (lo hi x : Q) (l : list Q) :
  Forall (λ v, (lo <= v)%Q ∧ (v <= hi)%Q) (x :: l) →
  ∃ m, statistics.mean (x :: l) = Ok m ∧ (lo <= m)%Q ∧ (m <= hi)%Q.
Proof.
  intros Hl. eexists. split; [reflexivity|].
  destruct (foldl_plus_bounds lo hi (x :: l) 0 Hl) as [Hlo Hhi].
  fold (Py.sum (x :: l)) in Hlo, Hhi. rewrite Qplus_0_l in Hlo, Hhi.
  assert (0 < inject_Z (Py.len (x :: l)))%Q as Hn.
  { change 0%Q with (inject_Z 0). rewrite <- Zlt_Qlt.
    unfold Py.len. simpl. lia. }
  split.
  - apply Qle_shift_div_l; [exact Hn|]. now rewrite Qmult_comm.
  - apply Qle_shift_div_r; [exact Hn|]. now rewrite Qmult_comm.
Qed.

Lemma insert_sorted_perm (x : Q) (l : list Q) :
  Py.insert_sorted x l ≡ₚ x :: l.
Proof.
  induction l as [|y l IH]; simpl; [reflexivity|].
  destruct (Py.le x y); [reflexivity|]. rewrite IH. apply Permutation_swap.
Qed.

Lemma sorted_perm (l : list Q) : Py.sorted l ≡ₚ l.
Proof.
  induction l as [|x l IH]; [reflexivity|].
  unfold Py.sorted in *. simpl. rewrite insert_sorted_perm. now rewrite IH.
Qed.

(** An element of [sorted(data)] taken at a valid index is one of
    [data]. *)
Lemma sorted_lookup_bounds (lo hi : Q) (data : list Q) (i : nat) :
  Forall (λ v, (lo <= v)%Q ∧ (v <= hi)%Q) data →
  (i < length data)%nat →
  (lo <= default 0%Q (Py.sorted data !! i))%Q
  ∧ (default 0%Q (Py.sorted data !! i) <= hi)%Q.
Proof.
  intros Hall Hi.
  destruct (lookup_lt_is_Some_2 (Py.sorted data) i) as [v Hv];
    [now rewrite length_sorted|].
  rewrite Hv. simpl.
  apply list_elem_of_lookup_2 in Hv. rewrite sorted_perm in Hv.
  rewrite Forall_forall in Hall. now apply Hall.
Qed.

Lemma median_bounds (lo hi x : Q) (l : list Q) :
  Forall (λ v, (lo <= v)%Q ∧ (v <= hi)%Q) (x :: l) →
  ∃ m, statistics.median (x :: l) = Ok m ∧ (lo <= m)%Q ∧ (m <= hi)%Q.
Proof.
  intros Hall. unfold statistics.median. rewrite length_sorted.
  set (n := length (x :: l)).
  assert (0 < n)%nat as Hn by (subst n; simpl; lia).
  replace (n =? 0)%nat with false by (symmetry; apply Nat.eqb_neq; lia).
  assert (n / 2 < n)%nat as Hhalf by (apply Nat.div_lt; lia).
  destruct (n mod 2 =? 1)%nat.
  - eexists. split; [reflexivity|].
    now apply sorted_lookup_bounds.
  - eexists. split; [reflexivity|].
    destruct (sorted_lookup_bounds lo hi (x :: l) (n / 2 - 1) Hall)
      as [Ha1 Ha2]; [fold n; lia|].
    destruct (sorted_lookup_bounds lo hi (x :: l) (n / 2) Hall)
      as [Hb1 Hb2]; [exact Hhalf|].
    split.
    + apply Qle_shift_div_l; [reflexivity|].
      setoid_replace (lo * 2)%Q with (lo + lo)%Q using relation Qeq by ring.
      now apply Qplus_le_compat.
    + apply Qle_shift_div_r; [reflexivity|].
      setoid_replace (hi * 2)%Q with (hi + hi)%Q using relation Qeq by ring.
      now apply Qplus_le_compat.
Qed.

(** Every dict built from a non-empty list is bounded. *)
Lemma execution_times_dict_bounded (w : World) (x : Q) (l : list Q)
    (t : ExecutionTimes.t) :
  execution_times_dict w (x :: l) = Ok t → bounded_times t.
Proof.
  unfold execution_times_dict. intros Ht.
  destruct (foldl_min2_spec l x) as [Hmin_in Hmin].
  destruct (foldl_max2_spec l x) as [Hmax_in Hmax].
  assert (Forall (λ v, (foldl Py.min2 x l <= v)%Q
                       ∧ (v <= foldl Py.max2 x l)%Q) (x :: l)) as Hall.
  { rewrite Forall_forall in Hmin, Hmax. apply Forall_forall.
    intros v Hv. split; [now apply Hmin | now apply Hmax]. }
  destruct (mean_bounds _ _ x l Hall) as (m & Hm & Hm1 & Hm2).
  destruct (median_bounds _ _ x l Hall) as (d & Hd & Hd1 & Hd2).
  rewrite Hm, Hd in Ht. simpl in Ht.
  destruct (if 1 <? Py.len (x :: l)
            then statistics.stdev (sqrt w) (x :: l) else Ok 0%Q)
    as [s|e]; simpl in Ht; [|discriminate Ht].
  injection Ht as <-. unfold bounded_times. simpl.
  split; [exact Hmin_in|]. split; [exact Hmax_in|].
  split; [exact Hall|]. auto.
Qed.

End Bounds.

(** X4. In the dict [execution_times] of every analysis, [min] and [max]
    are values of the list, every value lies between them, and so do
    [mean] and [median]. *)
Theorem summary_figures_bounded (w : World)
    (fork_results : list ForkMetric.t)
    (thread_results : list ThreadMetric.t) (total_time : Q)
    (subshell_results : list SubshellMetric.t) :
  returns_bounded_times (_analyze_fork_results w fork_results)
  ∧ returns_bounded_times
      (_analyze_thread_results w thread_results total_time)
  ∧ returns_bounded_times (_analyze_subshell_results w subshell_results).
Proof.
  unfold returns_bounded_times. split; [|split].
  - destruct (_analyze_fork_results_eq w fork_results) as (t & Ht & ->).
    eexists. split; [reflexivity|]. simpl.
    destruct (or_zero_cons
                (ForkMetric.execution_time
                   <$> filter (λ r, ForkMetric.success r) fork_results))
      as (x & l & E).
    rewrite E in Ht. eapply execution_times_dict_bounded, Ht.
  - destruct thread_results as [|r0 rs].
    + eexists. split; [reflexivity|]. unfold bounded_times. simpl.
      repeat split; try (now left); try (by vm_compute).
      repeat constructor; by vm_compute.
    + destruct (_analyze_thread_results_eq w r0 rs total_time)
        as (t & r & ca & Ht & -> & Hr & _).
      exists r. split; [reflexivity|]. rewrite Hr.
      destruct (or_zero_cons
                  (ThreadMetric.execution_time
                     <$> filter (λ r, ThreadMetric.success r) (r0 :: rs)))
        as (x & l & E).
      rewrite E in Ht. eapply execution_times_dict_bounded, Ht.
  - destruct (_analyze_subshell_results_eq w subshell_results)
      as (t & a & Ht & _ & ->).
    eexists. split; [reflexivity|]. simpl.
    destruct (or_zero_cons
                (SubshellMetric.execution_time
                   <$> filter (λ r, SubshellMetric.success r)
                         subshell_results))
      as (x & l & E).
    rewrite E in Ht. eapply execution_times_dict_bounded, Ht.
Qed.

(** ** What the loops collect *)

Section Collected.

Context (w : World) (command : list string).

(** As [for_each_runs], with a relation between each element and the
    value its body returns. *)
Lemma for_each_related {A B} (body : A → M B) (step : Store → Store)
    (R : A → B → Prop) (l : list A) :
  (∀ a st, ∃ b, body a st = (Ok b, step st) ∧ R a b) →
  ∀ st, ∃ bs, for_each body l st = (Ok bs, Nat.iter (length l) step st)
              ∧ Forall2 R l bs.
Proof.
  intros Hbody. induction l as [|a l IH]; intros st.
  - exists []. split; [reflexivity | constructor].
  - destruct (Hbody a st) as (b & Hb & Hab).
    destruct (IH (step st)) as (bs & Hbs & Hrel).
    exists (b :: bs). split.
    + cbn [for_each length]. unfold mbind, M_bind. rewrite Hb, Hbs.
      rewrite Nat.iter_succ_r. reflexivity.
    + now constructor.
Qed.

Lemma execute_with_fork_related (R : Z → ForkMetric.t → Prop) (n : Z)
    (st : Store) :
  (∀ i st, ∃ m, fork_iteration w command i st
                = (Ok m, record_spawn ForkChild command 10 st) ∧ R i m) →
  ∃ results,
    Forall2 R (Py.range n) results
    ∧ execute_with_fork w command n st
      = (_analyze_fork_results w results,
         spawn_n ForkChild command 10 (Z.to_nat n) st).
Proof.
  intros Hbody.
  destruct (for_each_related (fork_iteration w command)
              (record_spawn ForkChild command 10) R (Py.range n) Hbody st)
    as (results & Hrun & Hrel).
  exists results. split; [exact Hrel|]. rewrite length_range in Hrun.
  unfold execute_with_fork, mbind, M_bind. rewrite Hrun.
  now rewrite iter_record_spawn.
Qed.

Lemma execute_with_subshells_related (R : Z → SubshellMetric.t → Prop)
    (n : Z) (st : Store) :
  (∀ i st, ∃ m, subshell_iteration w command i st
                = (Ok m, record_spawn SubshellIteration command 10 st)
                ∧ R i m) →
  ∃ results,
    Forall2 R (Py.range n) results
    ∧ execute_with_subshells w command n st
      = (_analyze_subshell_results w results,
         spawn_n SubshellIteration command 10 (Z.to_nat n) st).
Proof.
  intros Hbody.
  destruct (for_each_related (subshell_iteration w command)
              (record_spawn SubshellIteration command 10) R (Py.range n)
              Hbody st)
    as (results & Hrun & Hrel).
  exists results. split; [exact Hrel|]. rewrite length_range in Hrun.
  unfold execute_with_subshells, mbind, M_bind. rewrite Hrun.
  now rewrite iter_record_spawn.
Qed.

(** The pool: the analysed list is a permutation of what the tasks
    appended, task by task. *)
Lemma execute_with_threads_related (R : Z → ThreadMetric.t → Prop) (n : Z)
    (st : Store) :
  1 ≤ n →
  (∀ i st, ∃ m, run_single_iteration w command (i + 1) st
                = (Ok m, record_spawn ThreadTask command 10 st) ∧ R i m) →
  ∃ appended results,
    Forall2 R (Py.range n) appended
    ∧ results ≡ₚ appended
    ∧ execute_with_threads w command n st
      = (_analyze_thread_results w results
           (pool_elapsed w (length (spawned st))),
         spawn_n ThreadTask command 10 (Z.to_nat n) st).
Proof.
  intros Hn Hbody. pose proof (cpu_count_pos w) as Hcpu.
  destruct (for_each_related
              (λ i, run_single_iteration w command (i + 1))
              (record_spawn ThreadTask command 10) R (Py.range n) Hbody st)
    as (appended & Hrun & Hrel).
  exists appended, (in_completion_order w (length (spawned st)) appended).
  split; [exact Hrel|]. split; [apply in_completion_order_perm|].
  rewrite length_range in Hrun.
  unfold execute_with_threads. run_M.
  replace (Z.min (Z.min n (multiprocessing_cpu_count w)) 8 <=? 0)
    with false by (symmetry; apply Z.leb_gt; lia).
  rewrite Hrun. now rewrite iter_record_spawn.
Qed.

(** Each body stores the number it was given; a body whose process raises
    stores a failure. *)
Lemma fork_iteration_number (i : Z) (st : Store) :
  ∃ m, fork_iteration w command i st
       = (Ok m, record_spawn ForkChild command 10 st)
       ∧ ForkMetric.iteration m = i + 1
       ∧ (raises (outcome w (length (spawned st))) = true
          → ForkMetric.success m = false).
Proof.
  eexists. split; [reflexivity|]. unfold os_waitpid.
  destruct (fate w (length (spawned st))); simpl;
    (split; [reflexivity|]); try reflexivity.
  destruct (outcome w (length (spawned st))); simpl;
    (discriminate || reflexivity).
Qed.

Lemma run_single_iteration_number (i : Z) (st : Store) :
  ∃ m, run_single_iteration w command (i + 1) st
       = (Ok m, record_spawn ThreadTask command 10 st)
       ∧ ThreadMetric.iteration m = i + 1
       ∧ (raises (outcome w (length (spawned st))) = true
          → ThreadMetric.success m = false).
Proof.
  unfold run_single_iteration, mbind, M_bind. cbv zeta. simpl.
  eexists. split; [reflexivity|].
  destruct (outcome w (length (spawned st))); simpl;
    (split; [reflexivity|]); (discriminate || reflexivity).
Qed.

Lemma subshell_iteration_number (i : Z) (st : Store) :
  ∃ m, subshell_iteration w command i st
       = (Ok m, record_spawn SubshellIteration command 10 st)
       ∧ SubshellMetric.iteration m = i + 1
       ∧ (raises (outcome w (length (spawned st))) = true
          → SubshellMetric.success m = false).
Proof.
  eexists. split; [reflexivity|].
  destruct (outcome w (length (spawned st))); simpl;
    (split; [reflexivity|]); (discriminate || reflexivity).
Qed.

Lemma range_succ (n : Z) : (λ i, i + 1) <$> Py.range n = seqZ 1 n.
Proof.
  unfold Py.range. change 1 with (1 + 0) at 2.
  rewrite <- (fmap_add_seqZ 1 0 n).
  apply list_fmap_ext. intros _ i _. lia.
Qed.

Lemma Forall2_fmap_eq {A B C} (f : A → C) (g : B → C) (l : list A)
    (k : list B) :
  Forall2 (λ a b, g b = f a) l k → g <$> k = f <$> l.
Proof.
  induction 1 as [|a b l k Hab _ IH]; [reflexivity|].
  rewrite !fmap_cons. now rewrite Hab, IH.
Qed.

End Collected.

(** X5. Every strategy numbers its results [1..n]: the fork and subshell
    lists hold the iterations [1, 2, ..., n] in this order, and the thread
    list holds each of them once, in the order of completion. *)
Theorem iteration_numbers (w : World) (command : list string) (n : Z)
    (st : Store) :
  1 ≤ n →
  (∃ r results efficiency,
     (execute_with_fork w command n st).1 = Ok r
     ∧ StrategyResult.detail r = ForkDetail results efficiency
     ∧ ForkMetric.iteration <$> results = seqZ 1 n)
  ∧ (∃ r results concurrency,
       (execute_with_threads w command n st).1 = Ok r
       ∧ StrategyResult.detail r = ThreadDetail results concurrency
       ∧ ThreadMetric.iteration <$> results ≡ₚ seqZ 1 n)
  ∧ (∃ r results isolation,
       (execute_with_subshells w command n st).1 = Ok r
       ∧ StrategyResult.detail r = SubshellDetail results isolation
       ∧ SubshellMetric.iteration <$> results = seqZ 1 n).
Proof.
  intros Hn. split; [|split].
  - destruct (execute_with_fork_related w command
                (λ i m, ForkMetric.iteration m = i + 1) n st)
      as (results & Hrel & ->).
    { intros i st'.
      destruct (fork_iteration_number w command i st') as (m & Hm & Hi & _).
      eauto. }
    destruct (_analyze_fork_results_eq w results) as (t & _ & ->).
    do 3 eexists. split; [reflexivity|]. split; [reflexivity|].
    rewrite <- range_succ. now apply Forall2_fmap_eq.
  - destruct (execute_with_threads_related w command
                (λ i m, ThreadMetric.iteration m = i + 1) n st Hn)
      as (appended & results & Hrel & Hperm & ->).
    { intros i st'.
      destruct (run_single_iteration_number w command i st')
        as (m & Hm & Hi & _).
      eauto. }
    destruct (_analyze_thread_results_shape w results
                (pool_elapsed w (length (spawned st))))
      as (r & ca & -> & Hd & _).
    exists r, results, ca. split; [reflexivity|]. split; [exact Hd|].
    rewrite Hperm, <- range_succ.
    now rewrite (Forall2_fmap_eq (λ i, i + 1) ThreadMetric.iteration
                   (Py.range n) appended Hrel).
  - destruct (execute_with_subshells_related w command
                (λ i m, SubshellMetric.iteration m = i + 1) n st)
      as (results & Hrel & ->).
    { intros i st'.
      destruct (subshell_iteration_number w command i st')
        as (m & Hm & Hi & _).
      eauto. }
    destruct (_analyze_subshell_results_eq w results) as (t & a & _ & _ & ->).
    do 3 eexists. split; [reflexivity|]. split; [reflexivity|].
    rewrite <- range_succ. now apply Forall2_fmap_eq.
Qed.

Lemma iteration_numbers_witness :
  1 ≤ 3
  ∧ ∃ r results efficiency,
      (execute_with_fork (sample_world second_times_out)
         ["python3"; "bench.py"] 3 empty_store).1 = Ok r
      ∧ StrategyResult.detail r = ForkDetail results efficiency
      ∧ ForkMetric.iteration <$> results = seqZ 1 3.
Proof.
  split; [lia|].
  destruct (iteration_numbers (sample_world second_times_out)
              ["python3"; "bench.py"] 3 empty_store) as (Hfork & _); [lia|].
  exact Hfork.
Defined.

(** ** ThreadExecutor: workers and efficiency *)

Section Workers.

Lemma distinct_le_len (l : list Z) : Py.distinct l ≤ Py.len l.
Proof.
  unfold Py.distinct, Py.len.
  assert (size (list_to_set l : gset Z) ≤ length l)%nat as H; [|lia].
  induction l as [|x l IH]; [reflexivity|].
  rewrite list_to_set_cons, size_union_alt, size_singleton. simpl.
  assert (size (list_to_set l ∖ {[x]} : gset Z)
          ≤ size (list_to_set l : gset Z))%nat as Hle.
  { apply subseteq_size. apply subseteq_difference_l. reflexivity. }
  lia.
Qed.

End Workers.

(** X6. For a non-empty result list the thread analysis reports a number
    of distinct workers between [1] and the number of iterations, and
    repeats it under [total_threads]. *)
Theorem thread_workers_bounded (w : World) (r0 : ThreadMetric.t)
    (rs : list ThreadMetric.t) (total_time : Q) :
  ∃ r workers concurrency,
    _analyze_thread_results w (r0 :: rs) total_time = Ok r
    ∧ StrategyResult.unique_threads_used r = Some workers
    ∧ StrategyResult.detail r = ThreadDetail (r0 :: rs) concurrency
    ∧ ConcurrencyAnalysis.total_threads concurrency = workers
    ∧ 1 ≤ workers ≤ StrategyResult.total_iterations r.
Proof.
  destruct (_analyze_thread_results_eq w r0 rs total_time)
    as (t & r & ca & _ & Hr & _ & Hu & Ht & _ & Hd & Hw & _).
  exists r, (Py.distinct (ThreadMetric.thread_id <$> r0 :: rs)), ca.
  split; [exact Hr|]. split; [exact Hu|]. split; [exact Hd|].
  split; [exact Hw|]. rewrite Ht. split.
  - rewrite fmap_cons. apply distinct_pos.
  - pose proof (distinct_le_len (ThreadMetric.thread_id <$> r0 :: rs)) as H.
    unfold Py.len in *. now rewrite length_fmap in H.
Qed.

(** X7. [thread_efficiency] never exceeds [1], and it is not negative when
    no successful iteration has a negative duration. *)
Theorem thread_efficiency_bounds (results : list ThreadMetric.t)
    (total_time : Q) :
  let durations :=
    ThreadMetric.execution_time
      <$> filter (λ r, ThreadMetric.success r) results in
  (_calculate_thread_efficiency results total_time <= 1)%Q
  ∧ (Forall (λ d, (0 <= d)%Q) durations
     → (0 <= _calculate_thread_efficiency results total_time)%Q).
Proof.
  intros durations. unfold _calculate_thread_efficiency.
  fold durations.
  destruct (filter (λ r, ThreadMetric.success r) results) as [|x l] eqn:E.
  { split; [by vm_compute | intros _; apply Qle_refl]. }
  destruct (Py.le total_time 0); [split; [by vm_compute | intros _; apply Qle_refl]|].
  cbv zeta.
  set (denominator :=
         (total_time
          * inject_Z (Py.distinct (ThreadMetric.thread_id <$> results)))%Q).
  destruct (min2_cases
              (if Py.gt denominator 0
               then (Py.sum durations / denominator)%Q else 0%Q) 1)
    as (Hcase & _ & Hone).
  split; [exact Hone|]. intros Hnonneg.
  destruct Hcase as [-> | ->]; [|by vm_compute].
  destruct (Py.gt denominator 0) eqn:Hd; [|apply Qle_refl].
  apply gt_spec in Hd. apply Qle_shift_div_l; [exact Hd|].
  rewrite Qmult_0_l. now apply sum_nonneg.
Qed.

Lemma thread_efficiency_bounds_witness :
  (0 <= _calculate_thread_efficiency sample_thread_results 0.5)%Q
  ∧ (_calculate_thread_efficiency sample_thread_results 0.5 <= 1)%Q.
Proof.
  destruct (thread_efficiency_bounds sample_thread_results 0.5)
    as [Hone Hzero].
  split; [|exact Hone]. apply Hzero. repeat constructor; by vm_compute.
Defined.

(** ** One iteration, and no success at all *)

Section Boundary.

Context (w : World) (command : list string).

Lemma execution_times_dict_singleton (v : Q) :
  execution_times_dict w [v]
  = Ok (ExecutionTimes.mk [v] (Py.sum [v] / inject_Z (Py.len [v])) v 0 v v).
Proof. reflexivity. Qed.



Lemma filter_none {A} (P : A → Prop) `{∀ x, Decision (P x)}
    (l : list A) :
  Forall (λ x, ¬ P x) l → filter P l = [].
Proof.
  induction 1 as [|x l Hx _ IH]; [reflexivity|].
  rewrite filter_cons. now destruct (decide (P x)).
Qed.

(** From [Forall2] against the loop indices to a plain [Forall]. *)
Lemma Forall2_right {A B} (P : B → Prop) (l : list A) (k : list B) :
  Forall2 (λ _ b, P b) l k → Forall P k.
Proof. induction 1; constructor; auto. Qed.

Lemma truediv_zero (n : Z) : (Py.truediv 0 n == 0)%Q.
Proof. unfold Py.truediv, Qdiv. apply Qmult_0_l. Qed.

End Boundary.


(** X9. When every process raises (the command cannot be started, or times
    out), each strategy still returns a result: no iteration is counted
    as successful, all [n] are counted as failed, [values] is [[0.0]]
    with a mean and deviation of [0], and the strategy's success rate is
    [0]. *)
Theorem all_iterations_fail (w : World) (command : list string) (n : Z)
    (st : Store) :
  1 ≤ n →
  (∀ k, raises (outcome w k) = true) →
  all_failed (execute_with_fork w command n st) n
  ∧ all_failed (execute_with_threads w command n st) n
  ∧ all_failed (execute_with_subshells w command n st) n.
Proof.
  intros Hn Hraise. unfold all_failed. split; [|split].
  - destruct (execute_with_fork_related w command
                (λ _ m, ¬ ForkMetric.success m) n st)
      as (results & Hrel & ->).
    { intros i st'.
      destruct (fork_iteration_number w command i st') as (m & Hm & _ & Hf).
      exists m. split; [exact Hm|]. rewrite (Hf (Hraise _)). auto. }
    pose proof (Forall2_length _ _ _ Hrel) as Hlen.
    rewrite length_range in Hlen.
    apply Forall2_right in Hrel.
    destruct (_analyze_fork_results_eq w results) as (t & Ht & ->).
    rewrite (filter_none _ _ Hrel) in *. simpl in Ht.
    rewrite execution_times_dict_singleton in Ht. injection Ht as <-.
    eexists. split; [reflexivity|]. unfold strategy_success_rate. simpl.
    unfold Py.len. simpl. rewrite <- Hlen.
    repeat split; try lia.
    unfold _calculate_fork_efficiency. simpl.
    rewrite (filter_none _ _ Hrel).
    destruct results; [reflexivity | apply truediv_zero].
  - destruct (execute_with_threads_related w command
                (λ _ m, ¬ ThreadMetric.success m) n st Hn)
      as (appended & results & Hrel & Hperm & ->).
    { intros i st'.
      destruct (run_single_iteration_number w command i st')
        as (m & Hm & _ & Hf).
      exists m. split; [exact Hm|]. rewrite (Hf (Hraise _)). auto. }
    pose proof (Forall2_length _ _ _ Hrel) as Hlen.
    rewrite length_range in Hlen.
    apply Forall2_right in Hrel. rewrite <- Hperm in Hrel.
    apply Permutation_length in Hperm. rewrite <- Hperm in Hlen.
    destruct results as [|r0 rs]; [simpl in Hlen; lia|].
    destruct (_analyze_thread_results_eq w r0 rs
                (pool_elapsed w (length (spawned st))))
      as (t & r & ca & Ht & Hres & Hr & _ & Htotal & Hsucc & Hd & _ & Hrate).
    destruct (_analyze_thread_results_shape w (r0 :: rs)
                (pool_elapsed w (length (spawned st))))
      as (r' & _ & Hr' & _ & _ & _ & _ & Hfail & _).
    rewrite Hres in Hr'. injection Hr' as <-. rewrite Hres.
    rewrite (filter_none _ _ Hrel) in *. simpl in Ht.
    rewrite execution_times_dict_singleton in Ht. injection Ht as <-.
    exists r. split; [reflexivity|]. unfold strategy_success_rate.
    rewrite Hr, Htotal, Hsucc, Hd, Hrate. simpl.
    assert (Py.len (r0 :: rs) = n) as Hn' by (unfold Py.len; lia).
    split; [exact Hn'|]. split; [reflexivity|]. split.
    + rewrite Hfail, Hn'. unfold Py.len. simpl. lia.
    + repeat split.
  - destruct (execute_with_subshells_related w command
                (λ _ m, ¬ SubshellMetric.success m) n st)
      as (results & Hrel & ->).
    { intros i st'.
      destruct (subshell_iteration_number w command i st')
        as (m & Hm & _ & Hf).
      exists m. split; [exact Hm|]. rewrite (Hf (Hraise _)). auto. }
    pose proof (Forall2_length _ _ _ Hrel) as Hlen.
    rewrite length_range in Hlen.
    apply Forall2_right in Hrel.
    destruct (_analyze_subshell_results_eq w results)
      as (t & a & Ht & Ha & ->).
    unfold _analyze_subshell_isolation in Ha.
    rewrite (filter_none _ _ Hrel) in *. simpl in Ht, Ha.
    rewrite execution_times_dict_singleton in Ht. injection Ht as <-.
    injection Ha as <-.
    eexists. split; [reflexivity|]. unfold strategy_success_rate. simpl.
    unfold Py.len. simpl. rewrite <- Hlen.
    repeat split; try lia.
    destruct results; [reflexivity | apply truediv_zero].
Qed.

Lemma all_iterations_fail_witness :
  1 ≤ 3
  ∧ (∀ k, raises (outcome (sample_world command_not_found) k) = true)
  ∧ all_failed
      (execute_with_subshells (sample_world command_not_found)
         ["missing-program"] 3 empty_store) 3.
Proof.
  split; [lia|]. split; [intros k; reflexivity|].
  apply (all_iterations_fail (sample_world command_not_found)
           ["missing-program"] 3 empty_store); [lia | intros k; reflexivity].
Defined.

(** ** What [execute] leaves in the store *)

Section Trace.

Context (w : World) (self : ParallelExecutor.t).

(** A call made by a strategy: the given command, ten seconds. *)
Lemma Forall_strategy_calls (from : call_site) (command : list string)
    (n : nat) :
  is_measured (call from command 10) = true →
  Forall (λ s, argv s = command ∧ timeout s = 10 ∧ is_measured s = true)
    (replicate n (call from command 10)).
Proof.
  intros H. apply Forall_replicate. repeat split; exact H.
Qed.

(** Whatever the strategy and the count, the dispatch only adds calls of
    the strategies to the store, and saves nothing. *)
Lemma run_strategy_store (command : list string) (execution_type : string)
    (n : Z) (st : Store) :
  ∃ calls,
    (run_strategy w command execution_type n st).2
    = {| spawned := spawned st ++ calls; saved := saved st |}
    ∧ Forall (λ s, argv s = command ∧ timeout s = 10
                   ∧ is_measured s = true) calls.
Proof.
  unfold run_strategy.
  destruct (String.eqb execution_type "fork").
  { destruct (execute_with_fork_runs w command n st) as (rs & _ & ->).
    eexists. split; [reflexivity|]. now apply Forall_strategy_calls. }
  destruct (String.eqb execution_type "thread").
  { change ((if 1 <? n
             then swallow (execute_with_threads w command 1)
             else mret ());; execute_with_threads w command n)
      with (run_strategy w command "thread" n).
    rewrite run_strategy_thread.
    assert (∀ st', ∃ calls,
              (execute_with_threads w command n st').2
              = {| spawned := spawned st' ++ calls; saved := saved st' |}
              ∧ Forall (λ s, argv s = command ∧ timeout s = 10
                             ∧ is_measured s = true) calls) as Hpool.
    { intros st'. destruct (Z_le_gt_dec n 0) as [Hle|Hgt].
      - rewrite execute_with_threads_no_worker by exact Hle.
        exists []. destruct st'. simpl. rewrite app_nil_r.
        split; [reflexivity | constructor].
      - destruct (execute_with_threads_runs w command n st')
          as (rs & _ & ->); [lia | apply cpu_count_pos |].
        eexists. split; [reflexivity|]. now apply Forall_strategy_calls. }
    destruct (1 <? n).
    - rewrite warm_up_store by apply cpu_count_pos.
      destruct (Hpool (record_spawn ThreadTask command 10 st))
        as (calls & -> & Hcalls).
      exists (call ThreadTask command 10 :: calls). simpl.
      rewrite <- app_assoc. split; [reflexivity|].
      constructor; [repeat split | exact Hcalls].
    - apply Hpool. }
  destruct (String.eqb execution_type "subshell").
  { destruct (execute_with_subshells_runs w command n st) as (rs & _ & ->).
    eexists. split; [reflexivity|]. now apply Forall_strategy_calls. }
  exists []. destruct st. simpl. rewrite app_nil_r.
  split; [reflexivity | constructor].
Qed.

(** [execute], case by case. *)
Lemma execute_cases (execution_type : string) (n : Z)
    (program_args : option string) (st : Store) :
  let command := resolved_command self program_args in
  let st1 :=
    record_spawn Preflight command (preflight_timeout execution_type) st in
  let out := execute w self execution_type n program_args st in
  (is_ok out.1 = false ∧ out.2 = st1)
  ∨ (∃ e st2, out = (Raise e, st2)
              ∧ st2 = (run_strategy w command execution_type n st1).2)
  ∨ (∃ r st2,
       run_strategy w command execution_type n st1 = (Ok r, st2)
       ∧ out = (Ok (stamp w self command (length (spawned st1)) r),
                (_save_results w
                   (stamp w self command (length (spawned st1)) r) st2).2)).
Proof.
  intros command st1 out. subst out.
  destruct (is_spawn_failure (outcome w (length (spawned st)))) eqn:E.
  - left. rewrite (execute_spawn_failure w self); [|exact E].
    split; reflexivity.
  - right. rewrite (execute_passed w self); [|exact E]. cbv zeta.
    fold command. fold st1.
    destruct (run_strategy w command execution_type n st1) as [[r|e] st2].
    + right. exists r, st2. split; reflexivity.
    + left. exists e, st2. split; reflexivity.
Qed.

End Trace.


Section Calls.

Context (w : World) (self : ParallelExecutor.t).

(** The calls [execute] adds to the store: the pre-flight one, then those
    of the strategy. *)
Lemma execute_calls (execution_type : string) (n : Z)
    (program_args : option string) (st : Store) :
  let command := resolved_command self program_args in
  let out := execute w self execution_type n program_args st in
  ∃ calls,
    spawned out.2
    = spawned st
      ++ call Preflight command (preflight_timeout execution_type) :: calls
    ∧ Forall (λ s, argv s = command ∧ timeout s = 10
                   ∧ is_measured s = true) calls.
Proof.
  intros command out.
  destruct (run_strategy_store w command execution_type n
              (record_spawn Preflight command
                 (preflight_timeout execution_type) st))
    as (calls & Hst2 & Hcalls).
  destruct (execute_cases w self execution_type n program_args st)
    as [[Hraise Hst] | [(e & st2 & Hout & Hst) | (r & st2 & Hrun & Hout)]];
    fold command in Hst || fold command in Hrun;
    fold out in Hraise, Hst || fold out in Hout.
  - exists []. rewrite Hst. split; [reflexivity | constructor].
  - rewrite Hout. simpl.
    exists calls. rewrite Hst, Hst2. simpl.
    rewrite <- app_assoc. split; [reflexivity | exact Hcalls].
  - rewrite Hout. cbn [fst snd].
    exists calls. rewrite spawned_save_results.
    rewrite Hrun in Hst2. simpl in Hst2. rewrite Hst2. simpl.
    rewrite <- app_assoc. split; [reflexivity | exact Hcalls].
Qed.

End Calls.


(** ** The recommendation list, message by message *)

(** Splits [_generate_recommendations] into the cases of its tests; the
    test [mean > 1] is settled first, since it excludes [mean < 0.001]. *)
Ltac recommendation_cases :=
  unfold _generate_recommendations, append_if; cbv zeta;
  repeat match goal with
         | |- context [if ?b then _ else _] =>
             lazymatch type of b with
             | bool => destruct b eqn:?
             end
         end;
  cbn [app].

Section Messages.

Lemma slow_excludes_small (mean : Q) :
  Py.gt mean 1 = true → Py.lt mean 0.001 = false.
Proof.
  intros H. apply gt_spec in H. apply lt_false.
  apply Qlt_le_weak. eapply Qlt_trans; [|exact H]. reflexivity.
Qed.

End Messages.

(** X12. The recommendation list is never empty, and the message
    "Performance acceptable" is never mixed with another one: if it is in
    the list, it is the whole list. *)
Theorem recommendations_never_empty (w : World) (run : BenchmarkRun.t) :
  let recommendations := _generate_recommendations w run in
  (∃ first rest, recommendations = first :: rest)
  ∧ (In rec_acceptable recommendations
     → recommendations = [rec_acceptable]).
Proof.
  intros recommendations. subst recommendations.
  recommendation_cases;
    (split; [do 2 eexists; reflexivity|]);
    simpl; intros H; intuition (discriminate || reflexivity).
Qed.


(** X14. The five messages of the strategies appear for their own strategy
    only, and there exactly under their threshold: for [fork] a mean under
    [0.01] and a stored success rate under [0.9]; for [thread] an
    efficiency under [0.5] and fewer distinct workers than
    [min(total_iterations, cpu_count)]; for [subshell] an isolation
    efficiency under [0.8]. *)
Theorem strategy_recommendation_thresholds (w : World)
    (run : BenchmarkRun.t) :
  let r := BenchmarkRun.results run in
  let exec_type := StrategyResult.execution_type r in
  let mean := ExecutionTimes.mean (StrategyResult.execution_times r) in
  let recommendations := _generate_recommendations w run in
  (In rec_fork_short recommendations
   ↔ exec_type = "fork" ∧ (mean < 0.01)%Q)
  ∧ (In rec_fork_failure_rate recommendations
     ↔ exec_type = "fork"
       ∧ (fork_success_rate (StrategyResult.detail r) < 0.9)%Q)
  ∧ (In rec_thread_efficiency recommendations
     ↔ exec_type = "thread"
       ∧ (thread_efficiency_of (StrategyResult.detail r) < 0.5)%Q)
  ∧ (In rec_thread_underused recommendations
     ↔ exec_type = "thread"
       ∧ default 0 (StrategyResult.unique_threads_used r)
         < Z.min (StrategyResult.total_iterations r)
             (multiprocessing_cpu_count w))
  ∧ (In rec_subshell_isolation recommendations
     ↔ exec_type = "subshell"
       ∧ (isolation_efficiency_of (StrategyResult.detail r) < 0.8)%Q).
Proof.
  intros r exec_type mean recommendations.
  rewrite <- !lt_spec, <- Z.ltb_lt.
  subst recommendations.
  pose proof (slow_excludes_small mean) as Hexcl.
  subst r exec_type mean.
  recommendation_cases;
    try (specialize (Hexcl eq_refl); discriminate Hexcl);
    repeat match goal with
           | E : String.eqb _ _ = true |- _ => apply String.eqb_eq in E
           | E : String.eqb _ _ = false |- _ => apply String.eqb_neq in E
           end;
    simpl; repeat split; intros;
    repeat match goal with
           | E : _ ∧ _ |- _ => destruct E
           end;
    try discriminate; try congruence;
    intuition (discriminate || reflexivity || congruence).
Qed.

(** ** The strategy that was asked for *)

Section Label.

Context (w : World).

Lemma run_strategy_label (command : list string) (execution_type : string)
    (n : Z) (st : Store) :
  supported execution_type = true → 1 ≤ n →
  ∃ r st2,
    run_strategy w command execution_type n st = (Ok r, st2)
    ∧ StrategyResult.execution_type r = execution_type
    ∧ StrategyResult.total_iterations r = n.
Proof.
  unfold supported, run_strategy. intros Hsup Hn.
  destruct (String.eqb execution_type "fork") eqn:Ef.
  { apply String.eqb_eq in Ef. subst execution_type.
    destruct (execute_with_fork_runs w command n st) as (rs & Hlen & ->).
    destruct (_analyze_fork_results_eq w rs) as (t & _ & ->).
    do 2 eexists. split; [reflexivity|]. simpl.
    split; [reflexivity|]. unfold Py.len. rewrite Hlen. lia. }
  destruct (String.eqb execution_type "thread") eqn:Et.
  { apply String.eqb_eq in Et. subst execution_type.
    change ((if 1 <? n
             then swallow (execute_with_threads w command 1)
             else mret ());; execute_with_threads w command n)
      with (run_strategy w command "thread" n).
    rewrite run_strategy_thread.
    destruct (execute_with_threads_runs w command n
                (if 1 <? n
                 then (execute_with_threads w command 1 st).2 else st))
      as (rs & Hlen & ->); [exact Hn | apply cpu_count_pos |].
    destruct (_analyze_thread_results_shape w rs
                (pool_elapsed w
                   (length
                      (spawned
                         (if 1 <? n
                          then (execute_with_threads w command 1 st).2
                          else st)))))
      as (r & ca & -> & _ & Hty & Ht & _).
    do 2 eexists. split; [reflexivity|]. split; [exact Hty|].
    rewrite Ht. unfold Py.len. rewrite Hlen. lia. }
  destruct (String.eqb execution_type "subshell") eqn:Es;
    [|discriminate Hsup].
  apply String.eqb_eq in Es. subst execution_type.
  destruct (execute_with_subshells_runs w command n st) as (rs & Hlen & ->).
  destruct (_analyze_subshell_results_eq w rs) as (t & a & _ & _ & ->).
  do 2 eexists. split; [reflexivity|]. simpl.
  split; [reflexivity|]. unfold Py.len. rewrite Hlen. lia.
Qed.

Lemma execute_label (self : ParallelExecutor.t) (execution_type : string)
    (n : Z) (program_args : option string) (st : Store) :
  supported execution_type = true → 1 ≤ n →
  is_spawn_failure (outcome w (length (spawned st))) = false →
  ∃ run,
    (execute w self execution_type n program_args st).1 = Ok run
    ∧ StrategyResult.execution_type (BenchmarkRun.results run)
      = execution_type
    ∧ StrategyResult.total_iterations (BenchmarkRun.results run) = n
    ∧ BenchmarkRun.system_info run = host w.
Proof.
  intros Hsup Hn Hpass. rewrite (execute_passed w self); [|exact Hpass].
  cbv zeta.
  destruct (run_strategy_label (resolved_command self program_args)
              execution_type n
              (record_spawn Preflight (resolved_command self program_args)
                 (preflight_timeout execution_type) st) Hsup Hn)
    as (r & st2 & -> & Hty & Ht).
  eexists. split; [reflexivity|]. simpl. auto.
Qed.


End Label.

(** X15. For a supported strategy, at least one iteration and a pre-flight
    call that passed, the dict that [execute] returns is the one of the
    strategy that was asked for: its [execution_type] is the requested
    one, and it carries the system information of the host. *)
Theorem execute_returns_requested_strategy (w : World)
    (self : ParallelExecutor.t) (execution_type : string) (n : Z)
    (program_args : option string) (st : Store) :
  supported execution_type = true → 1 ≤ n →
  is_spawn_failure (outcome w (length (spawned st))) = false →
  ∃ run,
    (execute w self execution_type n program_args st).1 = Ok run
    ∧ StrategyResult.execution_type (BenchmarkRun.results run)
      = execution_type
    ∧ BenchmarkRun.system_info run = host w
    ∧ match StrategyResult.detail (BenchmarkRun.results run) with
      | ForkDetail _ _ => execution_type = "fork"
      | ThreadDetail _ _ => execution_type = "thread"
      | SubshellDetail _ _ => execution_type = "subshell"
      end.
Proof.
  intros Hsup Hn Hpass.
  rewrite (execute_passed w self); [|exact Hpass]. cbv zeta.
  set (command := resolved_command self program_args).
  set (st1 := record_spawn Preflight command
                (preflight_timeout execution_type) st).
  unfold supported in Hsup. unfold run_strategy.
  destruct (String.eqb execution_type "fork") eqn:Ef.
  { apply String.eqb_eq in Ef. subst execution_type.
    destruct (execute_with_fork_runs w command n st1) as (rs & _ & ->).
    destruct (_analyze_fork_results_eq w rs) as (t & _ & ->).
    eexists. split; [reflexivity|]. simpl. auto. }
  destruct (String.eqb execution_type "thread") eqn:Et.
  { apply String.eqb_eq in Et. subst execution_type.
    change ((if 1 <? n
             then swallow (execute_with_threads w command 1)
             else mret ());; execute_with_threads w command n)
      with (run_strategy w command "thread" n).
    rewrite run_strategy_thread.
    destruct (execute_with_threads_runs w command n
                (if 1 <? n
                 then (execute_with_threads w command 1 st1).2 else st1))
      as (rs & _ & ->); [exact Hn | apply cpu_count_pos |].
    destruct (_analyze_thread_results_shape w rs
                (pool_elapsed w
                   (length
                      (spawned
                         (if 1 <? n
                          then (execute_with_threads w command 1 st1).2
                          else st1)))))
      as (r & ca & -> & Hd & Hty & _).
    eexists. split; [reflexivity|]. simpl. rewrite Hd. auto. }
  destruct (String.eqb execution_type "subshell") eqn:Es;
    [|discriminate Hsup].
  apply String.eqb_eq in Es. subst execution_type.
  destruct (execute_with_subshells_runs w command n st1) as (rs & _ & ->).
  destruct (_analyze_subshell_results_eq w rs) as (t & a & _ & _ & ->).
  eexists. split; [reflexivity|]. simpl. auto.
Qed.

Lemma execute_returns_requested_strategy_witness :
  supported "thread" = true
  ∧ 1 ≤ 3
  ∧ ∃ run,
      (execute (sample_world all_succeed) sample_executor "thread" 3 None
         empty_store).1 = Ok run
      ∧ StrategyResult.execution_type (BenchmarkRun.results run) = "thread".
Proof.
  split; [reflexivity|]. split; [lia|].
  destruct (execute_returns_requested_strategy (sample_world all_succeed)
              sample_executor "thread" 3 None empty_store)
    as (run & Hrun & Hty & _); [reflexivity | lia | reflexivity |].
  exists run. split; [exact Hrun | exact Hty].
Defined.



(** ** CodeCompiler *)

Section Compiler.

Context (h : BuildHost).

Lemma echo_error_failed (e tag : string) :
  is_error_tag tag = true → is_ready_tag tag = false →
  failed_shape (echo_error e tag).
Proof. intros H1 H2. repeat split; eauto. Qed.

Lemma _compile_java_shape (file_path : string) :
  failed_shape (_compile_java h file_path)
  ∨ ready_shape (_compile_java h file_path).
Proof.
  unfold _compile_java. cbv zeta.
  destruct (compile_step h _ _) as [e|[]].
  { left. now apply echo_error_failed. }
  destruct (negb (path_exists h _)).
  - destruct (filter _ (walk h (temp_dir h))) as [|[[root dirs] files] ?].
    + left. now apply echo_error_failed.
    + right. repeat split; eauto.
  - right. repeat split; eauto.
Qed.

Lemma _compile_cpp_shape (file_path : string) :
  failed_shape (_compile_cpp h file_path)
  ∨ ready_shape (_compile_cpp h file_path).
Proof.
  unfold _compile_cpp. cbv zeta.
  destruct (compile_step h _ _) as [e|[]].
  - left. now apply echo_error_failed.
  - right. repeat split; eauto.
Qed.

Lemma _compile_c_shape (file_path : string) :
  failed_shape (_compile_c h file_path)
  ∨ ready_shape (_compile_c h file_path).
Proof.
  unfold _compile_c. cbv zeta.
  destruct (compile_step h _ _) as [e|[]].
  - left. now apply echo_error_failed.
  - right. repeat split; eauto.
Qed.

Lemma _compile_go_shape (file_path : string) :
  failed_shape (_compile_go h file_path)
  ∨ ready_shape (_compile_go h file_path).
Proof.
  unfold _compile_go. cbv zeta.
  destruct (compile_step h _ _) as [e|[]].
  - left. now apply echo_error_failed.
  - right. repeat split; eauto.
Qed.

(** The dict lookup, key by key. *)
Lemma _get_interpreter_command_cases (file_path ext : string) :
  ∃ interpreter tag,
    _get_interpreter_command file_path ext = ([interpreter; file_path], tag)
    ∧ (interpreter, tag)
      ∈ [("python3", "python"); ("node", "javascript"); ("bash", "bash");
         ("ruby", "ruby"); ("php", "php"); ("perl", "perl");
         ("python3", "unknown")]
    ∧ (ext ∉ [".py"; ".js"; ".sh"; ".rb"; ".php"; ".pl"]
       → interpreter = "python3" ∧ tag = "unknown").
Proof.
  unfold _get_interpreter_command, command_map.
  rewrite !lookup_insert, lookup_singleton.
  repeat case_decide; subst; simpl;
    do 2 eexists; (split; [reflexivity|]);
    (split; [repeat constructor|]);
    intros Hnot; try (split; reflexivity);
    exfalso; apply Hnot; repeat constructor.
Qed.

Lemma _get_interpreter_command_ready (file_path ext : string) :
  ready_shape (_get_interpreter_command file_path ext).
Proof.
  destruct (_get_interpreter_command_cases file_path ext)
    as (interpreter & tag & -> & Hin & _).
  repeat (apply elem_of_cons in Hin as [Hin|Hin];
          [injection Hin as -> ->; repeat split; eauto|]).
  by apply elem_of_nil in Hin.
Qed.

Lemma compile_if_needed_shape (file_path : string) :
  failed_shape (compile_if_needed h file_path)
  ∨ ready_shape (compile_if_needed h file_path).
Proof.
  unfold compile_if_needed. cbv zeta.
  destruct (String.eqb _ ".java"); [apply _compile_java_shape|].
  destruct (String.eqb _ ".cpp"); [apply _compile_cpp_shape|].
  destruct (String.eqb _ ".c"); [apply _compile_c_shape|].
  destruct (String.eqb _ ".go"); [apply _compile_go_shape|].
  right. apply _get_interpreter_command_ready.
Qed.

End Compiler.

(** X17. [compile_if_needed] returns either a failure, tagged
    [java_error], [cpp_error], [c_error] or [go_error], whose command is
    [echo] with the error text as its one argument, or a command that is
    ready to run, tagged with one of the eleven other tags, which is not
    empty and is not such an [echo] command. The two cases exclude each
    other. *)
Theorem compile_result_shapes (h : BuildHost) (file_path : string) :
  let command := (compile_if_needed h file_path).1 in
  let tag := (compile_if_needed h file_path).2 in
  (∃ program rest, command = program :: rest)
  ∧ (is_error_tag tag = true ↔ is_echo command = true)
  ∧ (is_error_tag tag = negb (is_ready_tag tag))
  ∧ match command with
    | [program; text] =>
        is_error_tag tag = true
        → program = "echo" ∧ ∃ e, text = "Erreur: " +:+ e
    | _ => is_error_tag tag = false
    end.
Proof.
  intros command tag. subst command tag.
  destruct (compile_if_needed_shape h file_path)
    as [(Herr & Hready & e & Hcmd) | (Hready & Herr & Hecho & p & rest & Hcmd)].
  - rewrite Hcmd, Herr, Hready. split; [eauto|].
    split; [split; reflexivity|]. split; [reflexivity|]. eauto.
  - rewrite Herr, Hready, Hecho. split; [eauto|].
    split; [split; discriminate|]. split; [reflexivity|].
    destruct (compile_if_needed h file_path).1 as [|? [|? [|? ?]]];
      try reflexivity.
    discriminate.
Qed.

(** X18. A file whose lower-cased extension is none of [.java], [.cpp],
    [.c] and [.go] is not compiled: whatever the build host, the command
    is an interpreter followed by the file path as given, and for an
    extension outside the table the interpreter is [python3] and the tag
    [unknown]. *)
Theorem interpreted_files_are_not_compiled (h : BuildHost)
    (file_path : string) :
  let ext := Str.lower (os_path.splitext file_path).2 in
  is_compiled_ext ext = false →
  ∃ interpreter tag,
    compile_if_needed h file_path = ([interpreter; file_path], tag)
    ∧ (∀ h', compile_if_needed h' file_path
             = compile_if_needed h file_path)
    ∧ is_ready_tag tag = true
    ∧ (ext ∉ [".py"; ".js"; ".sh"; ".rb"; ".php"; ".pl"]
       → interpreter = "python3" ∧ tag = "unknown").
Proof.
  intros ext Hext. unfold is_compiled_ext in Hext.
  apply bool_decide_eq_false in Hext.
  assert (∀ known, known ∈ [".java"; ".cpp"; ".c"; ".go"]
                   → String.eqb ext known = false) as Hneq.
  { intros known Hin. apply String.eqb_neq. intros ->. now apply Hext. }
  assert (∀ h', compile_if_needed h' file_path
                = _get_interpreter_command file_path ext) as Hskip.
  { intros h'. unfold compile_if_needed. cbv zeta. fold ext.
    rewrite !Hneq by repeat constructor. reflexivity. }
  destruct (_get_interpreter_command_cases file_path ext)
    as (interpreter & tag & Hcmd & Hin & Hdefault).
  exists interpreter, tag. rewrite !Hskip. split; [exact Hcmd|].
  split; [intros h'; now rewrite Hskip|]. split; [|exact Hdefault].
  destruct (_get_interpreter_command_ready file_path ext) as (Hready & _).
  now rewrite Hcmd in Hready.
Qed.

Lemma interpreted_files_are_not_compiled_witness :
  is_compiled_ext (Str.lower (os_path.splitext "tools/Run.PY").2) = false
  ∧ ∃ interpreter tag,
      compile_if_needed failing_build_host "tools/Run.PY"
      = ([interpreter; "tools/Run.PY"], tag)
      ∧ is_ready_tag tag = true.
Proof.
  split; [reflexivity|].
  destruct (interpreted_files_are_not_compiled failing_build_host
              "tools/Run.PY")
    as (interpreter & tag & Hcmd & _ & Hready & _); [reflexivity|].
  exists interpreter, tag. split; [exact Hcmd | exact Hready].
Defined.

(** X19. A failed compilation does not stop anything: the executor is
    built all the same, around the command [echo "Erreur: ..."], and every
    process that [execute] then starts is that [echo]; with a supported
    strategy, at least one iteration and a pre-flight call that passed,
    [execute] returns a run of [n] iterations that carries the error
    tag. *)
Theorem failed_compilation_is_benchmarked (h : BuildHost) (w : World)
    (file_path output_dir : string) (verbose : bool)
    (execution_type : string) (n : Z) (program_args : option string)
    (st : Store) :
  is_error_tag (compile_if_needed h file_path).2 = true →
  let self := ParallelExecutor__init__ h file_path output_dir verbose in
  let out := execute w self execution_type n program_args st in
  (∃ e, ParallelExecutor.command self = ["echo"; "Erreur: " +:+ e])
  ∧ is_error_tag (ParallelExecutor.compile_info self) = true
  ∧ (∃ first calls,
       spawned out.2 = spawned st ++ first :: calls
       ∧ Forall (λ s, ∃ rest, argv s = "echo" :: rest) (first :: calls))
  ∧ (supported execution_type = true → 1 ≤ n
     → is_spawn_failure (outcome w (length (spawned st))) = false
     → ∃ run, out.1 = Ok run
              ∧ StrategyResult.total_iterations (BenchmarkRun.results run)
                = n
              ∧ is_error_tag (BenchmarkRun.compile_info run) = true).
Proof.
  intros Herr self out.
  destruct (compile_if_needed_shape h file_path)
    as [(_ & _ & e & Hcmd) | (_ & Hno & _)]; [|congruence].
  assert (ParallelExecutor.command self = ["echo"; "Erreur: " +:+ e]
          ∧ ParallelExecutor.compile_info self
            = (compile_if_needed h file_path).2) as [Hself Hinfo].
  { subst self. unfold ParallelExecutor__init__.
    destruct (compile_if_needed h file_path) as [command tag].
    simpl in *. now subst command. }
  assert (∃ rest, resolved_command self program_args = "echo" :: rest)
    as [rest Hresolved].
  { unfold resolved_command. rewrite Hself.
    destruct program_args as [[|c a]|]; simpl; eauto. }
  split; [eauto|]. split; [now rewrite Hinfo|]. split.
  - destruct (execute_calls w self execution_type n program_args st)
      as (calls & Hsp & Hcalls).
    fold out in Hsp. do 2 eexists. split; [exact Hsp|].
    constructor; [simpl; eauto|].
    eapply Forall_impl; [exact Hcalls|]. intros s (Hargv & _).
    rewrite Hargv. eauto.
  - intros Hsup Hn Hpass.
    destruct (execute_label w self execution_type n program_args st
                Hsup Hn Hpass) as (run & Hrun & _ & Htotal & _).
    fold out in Hrun. exists run. split; [exact Hrun|].
    split; [exact Htotal|].
    destruct (execute_cases w self execution_type n program_args st)
      as [[Hraise _] | [(e' & st2 & Hout & _) | (r & st2 & _ & Hout)]];
      fold out in Hraise || fold out in Hout.
    + rewrite Hrun in Hraise. discriminate Hraise.
    + rewrite Hout in Hrun. discriminate Hrun.
    + rewrite Hout in Hrun. simpl in Hrun. injection Hrun as <-.
      simpl. now rewrite Hinfo.
Qed.

Lemma failed_compilation_is_benchmarked_witness :
  is_error_tag (compile_if_needed failing_build_host "prog.cpp").2 = true
  ∧ ParallelExecutor.command
      (ParallelExecutor__init__ failing_build_host "prog.cpp" "out" false)
    = ["echo"; "Erreur: Erreur de compilation C++: syntax error"]
  ∧ ∃ run,
      (execute (sample_world all_succeed)
         (ParallelExecutor__init__ failing_build_host "prog.cpp" "out"
            false)
         "fork" 3 None empty_store).1 = Ok run
      ∧ is_error_tag (BenchmarkRun.compile_info run) = true.
Proof.
  split; [reflexivity|]. split; [reflexivity|].
  destruct (failed_compilation_is_benchmarked failing_build_host
              (sample_world all_succeed) "prog.cpp" "out" false "fork" 3
              None empty_store)
    as (_ & _ & _ & Hrun); [reflexivity|].
  destruct Hrun as (run & Hrun & _ & Htag); [reflexivity | lia | reflexivity |].
  exists run. split; [exact Hrun | exact Htag].
Defined.

(** ** ThreadExecutor: what one task records, and how the two ratios
    compare *)

Section Task.


Lemma le_false_lt (a b : Q) : Py.le a b = false → (b < a)%Q.
Proof.
  unfold Py.le. intros H. apply Qnot_le_lt. intros Hle.
  apply Qle_bool_iff in Hle. congruence.
Qed.

Lemma gt_false (a b : Q) : Py.gt a b = false → (a <= b)%Q.
Proof. unfold Py.gt. apply lt_false. Qed.

(** Dividing a sum that is not negative by more workers gives less. *)
Lemma quotient_shrinks (s t : Q) (workers : Z) :
  (0 <= s)%Q → (0 < t)%Q → 1 ≤ workers →
  (s / (t * inject_Z workers) <= s / t)%Q.
Proof.
  intros Hs Ht Hw.
  assert (1 <= inject_Z workers)%Q as Hw'
    by (change 1%Q with (inject_Z 1); now rewrite <- Zle_Qle).
  assert (0 < t * inject_Z workers)%Q as Hden.
  { apply Qmult_lt_0_compat; [exact Ht|].
    eapply Qlt_le_trans; [|exact Hw']. reflexivity. }
  apply Qle_shift_div_r; [exact Hden|].
  setoid_replace (s / t * (t * inject_Z workers))%Q
    with (inject_Z workers * s)%Q using relation Qeq.
  - rewrite <- (Qmult_1_l s) at 1.
    apply Qmult_le_compat_r; [exact Hw' | exact Hs].
  - field. intros H0. rewrite H0 in Ht. discriminate Ht.
Qed.

End Task.


(** X21. When no successful iteration has a negative duration,
    [thread_efficiency] never exceeds [actual_parallelism]. *)
Theorem efficiency_below_parallelism (w : World)
    (results : list ThreadMetric.t) (total_time : Q) :
  let durations :=
    ThreadMetric.execution_time
      <$> filter (λ r, ThreadMetric.success r) results in
  Forall (λ d, (0 <= d)%Q) durations →
  ∃ r concurrency,
    _analyze_thread_results w results total_time = Ok r
    ∧ StrategyResult.detail r = ThreadDetail results concurrency
    ∧ (ConcurrencyAnalysis.thread_efficiency concurrency
       <= ConcurrencyAnalysis.actual_parallelism concurrency)%Q.
Proof.
  intros durations Hnonneg.
  destruct (_analyze_thread_results_shape w results total_time)
    as (r & ca & Hr & Hd & _ & _ & _ & _ & _ & _ & He & Hp).
  exists r, ca. split; [exact Hr|]. split; [exact Hd|].
  rewrite He, Hp. unfold _calculate_thread_efficiency, parallelism_of.
  fold durations.
  destruct (filter (λ r, ThreadMetric.success r) results) as [|x l] eqn:E;
    [apply Qle_refl|].
  destruct (Py.le total_time 0) eqn:Hle.
  { destruct (Py.gt total_time 0) eqn:Hg; [|by vm_compute].
    exfalso. apply gt_spec in Hg. apply Qle_bool_iff in Hle.
    exact (Qlt_not_le _ _ Hg Hle). }
  apply le_false_lt in Hle. cbv zeta.
  replace (Py.gt total_time 0) with true
    by (symmetry; now apply gt_spec).
  destruct results as [|r0 rs]; [discriminate E|].
  pose proof (distinct_pos (ThreadMetric.thread_id r0)
                (ThreadMetric.thread_id <$> rs)) as Hw.
  rewrite <- fmap_cons in Hw.
  set (workers := Py.distinct (ThreadMetric.thread_id <$> r0 :: rs)) in *.
  assert (0 <= Py.sum durations)%Q as Hsum by now apply sum_nonneg.
  assert (0 < total_time * inject_Z workers)%Q as Hden.
  { apply Qmult_lt_0_compat; [exact Hle|].
    change 0%Q with (inject_Z 0). rewrite <- Zlt_Qlt. lia. }
  replace (Py.gt (total_time * inject_Z workers) 0) with true
    by (symmetry; now apply gt_spec).
  destruct (min2_cases (Py.sum durations / (total_time * inject_Z workers))
              1) as (_ & Hmin & _).
  eapply Qle_trans; [exact Hmin|].
  now apply quotient_shrinks.
Qed.

Lemma efficiency_below_parallelism_witness :
  Forall (λ d, (0 <= d)%Q)
    (ThreadMetric.execution_time
       <$> filter (λ r, ThreadMetric.success r) sample_thread_results)
  ∧ ∃ r concurrency,
      _analyze_thread_results (sample_world all_succeed)
        sample_thread_results 0.5 = Ok r
      ∧ StrategyResult.detail r
        = ThreadDetail sample_thread_results concurrency
      ∧ (ConcurrencyAnalysis.thread_efficiency concurrency
         <= ConcurrencyAnalysis.actual_parallelism concurrency)%Q.
Proof.
  split; [repeat constructor; by vm_compute|].
  apply (efficiency_below_parallelism (sample_world all_succeed)
           sample_thread_results 0.5).
  repeat constructor; by vm_compute.
Defined.

(** ** How many processes a run starts *)

Section Count.

Context (w : World).

Lemma length_spawn_n (from : call_site) (command : list string)
    (timeout : Z) (n : nat) (st : Store) :
  length (spawned (spawn_n from command timeout n st))
  = (length (spawned st) + n)%nat.
Proof. unfold spawn_n. simpl. now rewrite length_app, length_replicate. Qed.

Lemma run_strategy_count (command : list string) (execution_type : string)
    (n : Z) (st : Store) :
  supported execution_type = true → 1 ≤ n →
  Z.of_nat (length (spawned (run_strategy w command execution_type n st).2))
  = Z.of_nat (length (spawned st)) + n
    + (if String.eqb execution_type "thread" && (1 <? n) then 1 else 0).
Proof.
  unfold supported, run_strategy. intros Hsup Hn.
  destruct (String.eqb execution_type "fork") eqn:Ef.
  { apply String.eqb_eq in Ef. subst execution_type. simpl.
    destruct (execute_with_fork_runs w command n st) as (rs & _ & ->).
    cbn [snd]. rewrite length_spawn_n. lia. }
  destruct (String.eqb execution_type "thread") eqn:Et.
  { change ((if 1 <? n
             then swallow (execute_with_threads w command 1)
             else mret ());; execute_with_threads w command n)
      with (run_strategy w command "thread" n).
    rewrite run_strategy_thread. simpl andb.
    destruct (execute_with_threads_runs w command n
                (if 1 <? n
                 then (execute_with_threads w command 1 st).2 else st))
      as (rs & _ & ->); [exact Hn | apply cpu_count_pos |].
    cbn [snd]. rewrite length_spawn_n.
    destruct (1 <? n).
    - rewrite warm_up_store by apply cpu_count_pos.
      unfold record_spawn. simpl. rewrite length_app. simpl. lia.
    - lia. }
  destruct (String.eqb execution_type "subshell") eqn:Es;
    [|discriminate Hsup].
  simpl.
  destruct (execute_with_subshells_runs w command n st) as (rs & _ & ->).
  cbn [snd]. rewrite length_spawn_n. lia.
Qed.

End Count.

(** X22. With a supported strategy, [n >= 1] iterations and a pre-flight
    call that passed, [execute] starts the command [n + 1] times (the
    pre-flight call and the [n] iterations), and once more for the thread
    strategy when [n > 1] (the warm-up pool). *)
Theorem processes_started (w : World) (self : ParallelExecutor.t)
    (execution_type : string) (n : Z) (program_args : option string)
    (st : Store) :
  supported execution_type = true → 1 ≤ n →
  is_spawn_failure (outcome w (length (spawned st))) = false →
  let out := execute w self execution_type n program_args st in
  Z.of_nat (length (spawned out.2))
  = Z.of_nat (length (spawned st)) + 1 + n
    + (if String.eqb execution_type "thread" && (1 <? n) then 1 else 0).
Proof.
  intros Hsup Hn Hpass out. subst out.
  rewrite (execute_passed w self); [|exact Hpass]. cbv zeta.
  set (command := resolved_command self program_args).
  set (st1 := record_spawn Preflight command
                (preflight_timeout execution_type) st).
  pose proof (run_strategy_count w command execution_type n st1 Hsup Hn)
    as Hcount.
  assert (length (spawned st1) = S (length (spawned st))) as Hst1.
  { subst st1. unfold record_spawn. simpl. rewrite length_app. simpl. lia. }
  destruct (run_strategy w command execution_type n st1) as [[r|e] st2];
    cbn [fst snd] in *.
  - rewrite spawned_save_results. lia.
  - lia.
Qed.

Lemma processes_started_witness :
  supported "thread" = true
  ∧ 1 ≤ 4
  ∧ Z.of_nat
      (length
         (spawned
            (execute (sample_world all_succeed) sample_executor "thread" 4
               None empty_store).2))
    = 6.
Proof.
  split; [reflexivity|]. split; [lia|].
  apply (processes_started (sample_world all_succeed) sample_executor
           "thread" 4 None empty_store); [reflexivity | lia | reflexivity].
Defined.
